(** * Air-quality MCP server: a shallow embedding of [src/server/main.py]

    The server exposes three tools: [placename_to_latlon],
    [placenames_to_latlons] and [get_air_quality].  Each one talks to a
    web API, reads the JSON it answers with, and builds pydantic result
    objects.  The embedding follows the Python text statement by
    statement:

    - JSON values are an inductive type; a JSON object is a finite map
      from strings to values;
    - a Python exception is a value of [pyexn], and code that may raise
      lives in the error monad [result];
    - everything the code reads from outside (the clock, the random
      source, the HTTP answers, the few library functions whose text is
      not in this repository) is a field of one record, [env], so that a
      theorem quantified over [env] holds for every behaviour of the
      outside world;
    - the event loop, the semaphore and the pacing lock of a batch
      decide when a request starts, not what its task returns: the
      embedding keeps the order of the tasks and, through [finish_rank],
      which exception [asyncio.gather] sees first.

    A Python [int] is a [Z]; a Python [float] is the rational [Q] it
    stands for (the code only tests numbers for zero and passes them
    on; no arithmetic is done on them, and the conversion of an int
    into a float is pydantic's, a field of [env]).  Instants are
    integers, counted in microseconds, the resolution of [datetime]. *)

From Stdlib Require Import ZArith QArith Lia Ascii.
From stdpp Require Import base option list strings gmap pretty.

Set Warnings "-register-all".

Local Open Scope string_scope.
Local Open Scope Z_scope.

(** ** JSON values and Python exceptions *)

Inductive json : Type :=
| JNull
| JBool (b : bool)
| JInt (z : Z)
| JFloat (q : Q)
| JStr (s : string)
| JArr (items : list json)
| JObj (fields : gmap string json).

(** The exception classes the code can meet.  [RequestError] stands for
    every transport failure of httpx (no response was received);
    [HTTPStatusError] is what [raise_for_status] raises. *)
Inductive pyexn : Type :=
| HTTPStatusError (status_code : Z)
| RequestError
| JSONDecodeError
| AttributeError (attr : string)
| KeyError (key : string)
| IndexError
| TypeError
| ValueError
| ValidationError.

Inductive result (A : Type) : Type :=
| Ok (a : A)
| Raise (e : pyexn).
Arguments Ok {A} a.
Arguments Raise {A} e.

#[global] Instance result_ret : MRet result := fun _ a => Ok a.
#[global] Instance result_bind : MBind result := fun _ _ f m =>
  match m with
  | Ok a => f a
  | Raise e => Raise e
  end.
#[global] Instance result_fmap : FMap result := fun _ _ f m =>
  match m with
  | Ok a => Ok (f a)
  | Raise e => Raise e
  end.

(** ** The Python operations the code applies to JSON values *)

(** [bool(x)]: what [if not x] tests. *)
Definition truthy (j : json) : bool :=
  match j with
  | JNull => false
  | JBool b => b
  | JInt z => negb (z =? 0)
  | JFloat q => negb (Qnum q =? 0)
  | JStr s => negb (String.eqb s "")
  | JArr items => match items with [] => false | _ => true end
  | JObj fields => negb (Nat.eqb (size fields) 0)
  end.

(** [x is None]. *)
Definition is_none (j : json) : bool :=
  match j with
  | JNull => true
  | _ => false
  end.

(** [x == "..."] for a string literal. *)
Definition eq_str (j : json) (lit : string) : bool :=
  match j with
  | JStr s => String.eqb s lit
  | _ => false
  end.

(** [x.get(key, default)]: only a dict has the method. *)
Definition py_get_default (j : json) (key : string) (dflt : json) : result json :=
  match j with
  | JObj fields => Ok (default dflt (fields !! key))
  | _ => Raise (AttributeError "get")
  end.

(** [x.get(key)]. *)
Definition py_get (j : json) (key : string) : result json :=
  py_get_default j key JNull.

(** [x[key]] for a string key. *)
Definition py_getitem (j : json) (key : string) : result json :=
  match j with
  | JObj fields =>
      match fields !! key with
      | Some v => Ok v
      | None => Raise (KeyError key)
      end
  | _ => Raise TypeError
  end.

Definition chars (s : string) : list json :=
  (fun c => JStr (String c EmptyString)) <$> String.list_ascii_of_string s.

Definition keys (fields : gmap string json) : list json :=
  (fun kv => JStr kv.1) <$> map_to_list fields.

(** [x[0]]. *)
Definition py_getitem0 (j : json) : result json :=
  match j with
  | JArr items =>
      match items with
      | x :: _ => Ok x
      | [] => Raise IndexError
      end
  | JStr s =>
      match chars s with
      | c :: _ => Ok c
      | [] => Raise IndexError
      end
  | JObj _ => Raise (KeyError "0")
  | _ => Raise TypeError
  end.

(** [iter(x)], as a [for] loop or a generator expression runs it. *)
Definition py_iter (j : json) : result (list json) :=
  match j with
  | JArr items => Ok items
  | JStr s => Ok (chars s)
  | JObj fields => Ok (keys fields)
  | _ => Raise TypeError
  end.

(** [reversed(x)]. *)
Definition py_reversed (j : json) : result (list json) :=
  reverse <$> py_iter j.

(** [s.replace("Z", "+00:00")] on a Python string. *)
Fixpoint replace_Z (s : string) : string :=
  match s with
  | EmptyString => EmptyString
  | String c rest =>
      if Ascii.eqb c "Z"%char then "+00:00" +:+ replace_Z rest
      else String c (replace_Z rest)
  end.

(** [x.replace("Z", "+00:00")]: only a string has the method. *)
Definition py_replace_Z (j : json) : result string :=
  match j with
  | JStr s => Ok (replace_Z s)
  | _ => Raise (AttributeError "replace")
  end.

(** ** The outside world *)

(** What [client.get] comes back with: a response, or no response at
    all (httpx raises a [RequestError]).  [body] is [None] when the
    payload is not JSON. *)
Record response : Type := {
  status_code : Z;
  body : option json
}.

Inductive http_reply : Type :=
| NoResponse
| Response (r : response).

(** [datetime.fromisoformat]: the string is refused, or read as a naive
    datetime, or as an aware one, which names an instant. *)
Inductive isoparse : Type :=
| IsoInvalid
| IsoNaive
| IsoAware (instant : Z).

(** Everything a call reads from outside the repository.

    - [utcnow]: [datetime.now(timezone.utc)], in microseconds;
    - [geocode_reply i name]: the geocoder's answer to the [i]-th request
      of a call, for place name [name];
    - [finish_rank i]: when the [i]-th task of a batch finishes, relative
      to the others ([asyncio.gather] hands on the exception raised
      first);
    - [locations_reply lat lon]: the answer of [/v3/locations];
    - [measurements_reply k id from]: the answer of the hourly
      measurements of sensor [id] since [from], asked while visiting the
      [k]-th shuffled station;
    - [fromisoformat]: the parser of the datetime module;
    - [lax_int]: pydantic's coercion of a bool, a float or a string into
      an [int], [None] when it is refused;
    - [lax_float]: pydantic's coercion of an int, a bool or a string into
      a [float], [None] when it is refused (an int is rounded to the
      nearest float, and refused when it is out of the range of
      floats);
    - [random_draw i]: the random number drawn for position [i] of
      [random.shuffle];
    - [tb_lineno], [exc_str]: the line of the innermost traceback frame
      and [str(exc_value)] of a caught exception. *)
Record env : Type := {
  utcnow : Z;
  geocode_reply : nat -> string -> http_reply;
  finish_rank : nat -> nat;
  locations_reply : Q -> Q -> http_reply;
  measurements_reply : nat -> json -> Z -> http_reply;
  fromisoformat : string -> isoparse;
  lax_int : json -> option Z;
  lax_float : json -> option Q;
  random_draw : nat -> nat;
  tb_lineno : pyexn -> Z;
  exc_str : pyexn -> string
}.

(** [await client.get(...)]. *)
Definition client_get (reply : http_reply) : result response :=
  match reply with
  | NoResponse => Raise RequestError
  | Response r => Ok r
  end.

(** httpx: a status code is a success between 200 and 299. *)
Definition is_success (code : Z) : bool :=
  (200 <=? code) && (code <=? 299).

(** [response.raise_for_status()]. *)
Definition raise_for_status (r : response) : result unit :=
  if is_success (status_code r) then Ok tt
  else Raise (HTTPStatusError (status_code r)).

(** [response.json()]. *)
Definition response_json (r : response) : result json :=
  match body r with
  | Some data => Ok data
  | None => Raise JSONDecodeError
  end.

(** ** pydantic models *)

(** Validation of a value against a field of type [int], [float], [str]
    (pydantic's default, lax mode).  An int is an [int] and a float is a
    [float] as they are; what has to be converted goes through [env],
    an int handed to a field of type [float] included: the float it
    becomes is the nearest one, not always the same number, and there is
    none for an int out of the range of floats. *)
Definition validate_int (w : env) (j : json) : result Z :=
  match j with
  | JInt z => Ok z
  | JBool _ | JFloat _ | JStr _ =>
      match lax_int w j with
      | Some z => Ok z
      | None => Raise ValidationError
      end
  | _ => Raise ValidationError
  end.

Definition validate_float (w : env) (j : json) : result Q :=
  match j with
  | JFloat q => Ok q
  | JInt _ | JBool _ | JStr _ =>
      match lax_float w j with
      | Some q => Ok q
      | None => Raise ValidationError
      end
  | _ => Raise ValidationError
  end.

Definition validate_str (j : json) : result string :=
  match j with
  | JStr s => Ok s
  | _ => Raise ValidationError
  end.

Module GeocodePlacenameResponse.

Record t : Type := {
  latitude : Q;
  longitude : Q;
  placename : string;
  message : string
}.

(** The constructor call [GeocodePlacenameResponse(latitude=...,
    longitude=..., message=..., placename=...)] on values read from
    JSON. *)
Definition make (w : env) (lat lon : json) (msg name : string) : result t :=
  match validate_float w lat, validate_float w lon with
  | Ok la, Ok lo =>
      Ok {| latitude := la; longitude := lo; placename := name; message := msg |}
  | _, _ => Raise ValidationError
  end.

(** The outcome of a lookup that failed: lines 145-150 and 160-165. *)
Definition failure (name msg : string) : t :=
  {| latitude := 0%Q; longitude := 0%Q; placename := name; message := msg |}.

End GeocodePlacenameResponse.

Module AirQualityResult.

Record t : Type := {
  sensor_id : Z;
  placename : string;
  timestamp : string;
  pm25 : Q;
  status : string
}.

(** The constructor call [AirQualityResult(sensor_id=..., placename=...,
    timestamp=..., pm25=..., status=...)] on values read from JSON. *)
Definition make (w : env) (id name ts value : json) (st : string) : result t :=
  match validate_int w id, validate_str name, validate_str ts, validate_float w value with
  | Ok i, Ok n, Ok t, Ok v =>
      Ok {| sensor_id := i; placename := n; timestamp := t; pm25 := v; status := st |}
  | _, _, _, _ => Raise ValidationError
  end.

(** The reading every failing stage answers with: lines 261-267,
    374-380 and 389-395.  Its values are literals of the source; the
    int -1 handed to [pm25] is the float -1.0. *)
Definition sentinel (st : string) : t :=
  {| sensor_id := 0; placename := ""; timestamp := ""; pm25 := (-1)%Q;
     status := st |}.

End AirQualityResult.

(** ** Geocoding *)

(** The [try] block of [_geocode_one_placename], lines 134-158.  [i] is
    the number of the request within the call. *)
Definition geocode_try (w : env) (i : nat) (placename : string)
  : result GeocodePlacenameResponse.t :=
  response ← client_get (geocode_reply w i placename);
  raise_for_status response;;
  data ← response_json response;
  results ← py_get data "results";
  if negb (truthy results) then
    Ok (GeocodePlacenameResponse.failure placename "error resolving placename")
  else
    first ← py_getitem0 results;
    position ← py_getitem first "position";
    lat ← py_getitem position "lat";
    lon ← py_getitem position "lon";
    GeocodePlacenameResponse.make w lat lon "ok" placename.

(** [_geocode_one_placename], lines 130-165: the [try] block with its
    one handler, for [httpx.HTTPStatusError]. *)
Definition _geocode_one_placename (w : env) (i : nat) (placename : string)
  : result GeocodePlacenameResponse.t :=
  match geocode_try w i placename with
  | Raise (HTTPStatusError code) =>
      Ok (GeocodePlacenameResponse.failure placename
            ("upstream error (status code=" +:+ pretty code +:+ ")"))
  | other => other
  end.

(** [placename_to_latlon], lines 173-182: one request, the first of its
    call. *)
Definition placename_to_latlon (w : env) (placename : string)
  : result GeocodePlacenameResponse.t :=
  _geocode_one_placename w 0%nat placename.

(** [asyncio.gather] over the tasks, lines 216-217: the results in the order of
    the tasks, or the exception that was raised first.  [first_raised]
    finds the failed task that finished earliest (the leftmost one among
    equals). *)
Fixpoint first_raised {A} (rank : nat -> nat) (i : nat) (rs : list (result A))
  : option (nat * pyexn) :=
  match rs with
  | [] => None
  | r :: rest =>
      let later := first_raised rank (S i) rest in
      match r with
      | Ok _ => later
      | Raise e =>
          match later with
          | Some (j, e') =>
              if (rank j <? rank i)%nat then Some (j, e') else Some (i, e)
          | None => Some (i, e)
          end
      end
  end.

Fixpoint returned {A} (rs : list (result A)) : list A :=
  match rs with
  | [] => []
  | Ok a :: rest => a :: returned rest
  | Raise _ :: rest => returned rest
  end.

Definition gather {A} (rank : nat -> nat) (rs : list (result A)) : result (list A) :=
  match first_raised rank 0 rs with
  | Some (_, e) => Raise e
  | None => Ok (returned rs)
  end.

(** [_get_one_semaphored], lines 205-214.  The semaphore and the pacing
    lock decide when the request of task [i] starts; what the task
    returns is what [_geocode_one_placename] returns. *)
Definition _get_one_semaphored (w : env) (i : nat) (placename : string)
  : result GeocodePlacenameResponse.t :=
  _geocode_one_placename w i placename.

(** [placenames_to_latlons], lines 190-218. *)
Definition placenames_to_latlons (w : env) (placenames : list string)
  : result (list GeocodePlacenameResponse.t) :=
  let tasks := imap (_get_one_semaphored w) placenames in
  gather (finish_rank w) tasks.

(** ** Air quality *)

(** [timedelta(hours=8)], in microseconds. *)
Definition eight_hours : Z := 8 * 3600 * 1000000.

(** [s.get("parameter", {}).get("name") == "pm25"], lines 289 and 313. *)
Definition measures_pm25 (s : json) : result bool :=
  parameter ← py_get_default s "parameter" (JObj ∅);
  name ← py_get parameter "name";
  Ok (eq_str name "pm25").

(** [any(... for s in sensors)], lines 288-290. *)
Fixpoint any_pm25 (sensors : list json) : result bool :=
  match sensors with
  | [] => Ok false
  | s :: rest =>
      found ← measures_pm25 s;
      if found : bool then Ok true else any_pm25 rest
  end.

(** [next((s for s in sensors if ...), None)], lines 309-316. *)
Fixpoint next_pm25 (sensors : list json) : result (option json) :=
  match sensors with
  | [] => Ok None
  | s :: rest =>
      found ← measures_pm25 s;
      if found : bool then Ok (Some s) else next_pm25 rest
  end.

(** Line 278: [(loc.get("datetimeLast") or {}).get("utc")]. *)
Definition last_updated_str (loc : json) : result json :=
  datetimeLast ← py_get loc "datetimeLast";
  py_get (if truthy datetimeLast then datetimeLast else JObj ∅) "utc".

(** Lines 287-290: [has_pm25]. *)
Definition has_pm25 (loc : json) : result bool :=
  sensors ← py_get_default loc "sensors" (JArr []);
  items ← py_iter sensors;
  any_pm25 items.

(** The body of the loop of lines 274-292 for one location: [true] when
    the location is appended to [suitable_locations], [false] on a
    [continue] (or when the location has no pm25 sensor).  A naive
    datetime cannot be compared with the aware cutoff of line 270:
    line 284 raises [TypeError] on it. *)
Definition is_suitable (w : env) (eight_hours_ago : Z) (loc : json) : result bool :=
  last_updated_str ← last_updated_str loc;
  if negb (truthy last_updated_str) then Ok false else
  iso ← py_replace_Z last_updated_str;
  match fromisoformat w iso with
  | IsoInvalid => Raise ValueError
  | IsoNaive => Raise TypeError
  | IsoAware last_updated =>
      if last_updated <? eight_hours_ago then Ok false
      else has_pm25 loc
  end.

(** The loop of lines 273-292. *)
Fixpoint suitable_loop (w : env) (eight_hours_ago : Z)
    (suitable_locations results : list json) : result (list json) :=
  match results with
  | [] => Ok suitable_locations
  | loc :: rest =>
      keep ← is_suitable w eight_hours_ago loc;
      suitable_loop w eight_hours_ago
        (if keep : bool then suitable_locations ++ [loc] else suitable_locations) rest
  end.

(** [x[i], x[j] = x[j], x[i]]. *)
Definition swap {A} (i j : nat) (x : list A) : list A :=
  match x !! i, x !! j with
  | Some xi, Some xj => <[i := xj]> (<[j := xi]> x)
  | _, _ => x
  end.

(** [random.shuffle(x)], line 302, as CPython runs it: for [i] from
    [len(x) - 1] down to 1, swap [x[i]] with [x[j]] for a random
    [j <= i]. *)
Fixpoint shuffle_from {A} (draw : nat -> nat) (i : nat) (x : list A) : list A :=
  match i with
  | O => x
  | S i' => shuffle_from draw i' (swap i (draw i mod (i + 1))%nat x)
  end.

Definition shuffle {A} (draw : nat -> nat) (x : list A) : list A :=
  shuffle_from draw (length x - 1)%nat x.

(** The test of lines 351-355 on one measurement. *)
Definition has_reading (measurement : json) : result bool :=
  period ← py_get_default measurement "period" (JObj ∅);
  datetimeTo ← py_get_default period "datetimeTo" (JObj ∅);
  utc ← py_get datetimeTo "utc";
  if is_none utc then Ok false else
  value ← py_get measurement "value";
  Ok (negb (is_none value)).

(** The loop of lines 350-357 over the measurements it is handed. *)
Fixpoint first_valid (measurements : list json) : result (option json) :=
  match measurements with
  | [] => Ok None
  | measurement :: rest =>
      valid ← has_reading measurement;
      if valid : bool then Ok (Some measurement) else first_valid rest
  end.

(** Lines 349-357: [last_measurement] after the scan of
    [reversed(results)]. *)
Definition last_measurement (results : json) : result (option json) :=
  measurements ← py_reversed results;
  first_valid measurements.

(** Lines 326-340: the measurements of one sensor; [None] when the
    upstream answers with an error status (the loop goes on to the next
    station). *)
Definition fetch_measurements (w : env) (eight_hours_ago : Z) (k : nat)
    (sensor_id : json) : result (option json) :=
  let attempt :=
    response ← client_get (measurements_reply w k sensor_id eight_hours_ago);
    raise_for_status response;;
    response_json response in
  match attempt with
  | Ok data => Ok (Some data)
  | Raise (HTTPStatusError _) => Ok None
  | Raise e => Raise e
  end.

(** Lines 359-368: the reading built from an accepted measurement. *)
Definition reading_of (w : env) (selected_location sensor_id measurement : json)
  : result AirQualityResult.t :=
  name ← py_getitem selected_location "name";
  period ← py_getitem measurement "period";
  datetimeTo ← py_getitem period "datetimeTo";
  utc ← py_getitem datetimeTo "utc";
  value ← py_getitem measurement "value";
  AirQualityResult.make w sensor_id name utc value "Success.".

(** Lines 349-368 for the [results] of one sensor: the reading to
    append, or [None] when the station is passed over. *)
Definition extract_reading (w : env) (selected_location sensor_id results : json)
  : result (option AirQualityResult.t) :=
  found ← last_measurement results;
  match found with
  | None => Ok None
  | Some measurement =>
      if negb (truthy measurement) then Ok None
      else Some <$> reading_of w selected_location sensor_id measurement
  end.

(** Lines 309-323: the id of the station's pm25 sensor; [None] on the
    [continue] of line 320. *)
Definition locate_sensor (selected_location : json) : result (option json) :=
  sensors ← py_getitem selected_location "sensors";
  items ← py_iter sensors;
  pm25_sensor ← next_pm25 items;
  match pm25_sensor with
  | None => Ok None
  | Some pm25_sensor =>
      if negb (truthy pm25_sensor) then Ok None
      else Some <$> py_getitem pm25_sensor "id"
  end.

(** The body of the loop of lines 304-368 after the test of the cap, for
    the [k]-th station visited: the reading to append, or [None] on a
    [continue]. *)
Definition visit (w : env) (eight_hours_ago : Z) (k : nat) (selected_location : json)
  : result (option AirQualityResult.t) :=
  located ← locate_sensor selected_location;
  match located with
  | None => Ok None
  | Some sensor_id =>
      fetched ← fetch_measurements w eight_hours_ago k sensor_id;
      match fetched with
      | None => Ok None
      | Some data =>
          results ← py_get data "results";
          if negb (truthy results) then Ok None
          else extract_reading w selected_location sensor_id results
      end
  end.

(** The loop of lines 303-368. *)
Fixpoint collect (w : env) (eight_hours_ago : Z) (k : nat)
    (air_quality_results : list AirQualityResult.t) (locations : list json)
  : result (list AirQualityResult.t) :=
  match locations with
  | [] => Ok air_quality_results
  | selected_location :: rest =>
      if (3 <=? length air_quality_results)%nat then Ok air_quality_results
      else
        reading ← visit w eight_hours_ago k selected_location;
        collect w eight_hours_ago (S k)
          (match reading with
           | Some r => air_quality_results ++ [r]
           | None => air_quality_results
           end) rest
  end.

(** Lines 270-369: what the [try] block does with a non-empty
    [results] of the discovery request. *)
Definition select_readings (w : env) (results : json)
  : result (list AirQualityResult.t) :=
  let eight_hours_ago := utcnow w - eight_hours in
  locations ← py_iter results;
  suitable_locations ← suitable_loop w eight_hours_ago [] locations;
  match suitable_locations with
  | [] => Ok []
  | _ =>
      collect w eight_hours_ago 0 []
        (shuffle (random_draw w) suitable_locations)
  end.

(** The [try] block of [get_air_quality], lines 240-369. *)
Definition get_air_quality_try (w : env) (latitude longitude : Q)
  : result (list AirQualityResult.t) :=
  response ← client_get (locations_reply w latitude longitude);
  raise_for_status response;;
  data ← response_json response;
  results ← py_get data "results";
  if negb (truthy results) then
    Ok [AirQualityResult.sentinel "Error. No locations found near coordinates."]
  else select_readings w results.

(** The status of line 394. *)
Definition unexpected_status (w : env) (e : pyexn) : string :=
  "An unexpected error occurred at line " +:+ pretty (tb_lineno w e)
  +:+ ": " +:+ exc_str w e.

(** [get_air_quality], lines 226-396: the [try] block with its two
    handlers. *)
Definition get_air_quality (w : env) (latitude longitude : Q)
  : result (list AirQualityResult.t) :=
  match get_air_quality_try w latitude longitude with
  | Ok readings => Ok readings
  | Raise (HTTPStatusError code) =>
      Ok [AirQualityResult.sentinel ("API error: " +:+ pretty code)]
  | Raise e => Ok [AirQualityResult.sentinel (unexpected_status w e)]
  end.

(** ** The middleware *)

(** What [UserInfoMiddleware.on_call_tool], lines 43-66, reads of a call:
    whether [context.fastmcp_context] is set, what
    [fastmcp.get_tool(context.message.name)] gives (the name of the
    tool, or an exception), and the headers [get_http_headers()]
    returns. *)
Record tool_call : Type := {
  fastmcp_context : bool;
  get_tool : result string;
  get_http_headers : gmap string string
}.

(** Lines 47-64: the [try] block and its handler, [except Exception:
    pass]; the value is the list of the lines handed to
    [logging.info]. *)
Definition log_user_info (context : tool_call) : list string :=
  let attempt :=
    tool_name ← get_tool context;
    Ok (match get_http_headers context !! "user-info" with
        | Some user_info => ["tool=" +:+ tool_name +:+ "; " +:+ user_info]
        | None => ["user_info is unavailable"]
        end) in
  match attempt with
  | Ok logged => logged
  | Raise _ => []
  end.

(** [on_call_tool], lines 44-66: the lines logged, and what the method
    returns, [None] when it falls off the end of the [if] without
    calling [call_next]. *)
Definition on_call_tool {T} (context : tool_call)
    (call_next : tool_call -> result T) : list string * option (result T) :=
  if fastmcp_context context then
    (log_user_info context, Some (call_next context))
  else ([], None).

(** ** Statements in the words of the specification *)

(** A lookup or a stage returns: it ends in a value, not in an
    exception. *)
Definition returns {A} (r : result A) : Prop := exists a, r = Ok a.

(** The discovery request of a call is answered with a success status
    and a JSON object whose [results] are [results] ([None] in Python,
    here [JNull], when the object has no such key). *)
Definition discovers (w : env) (latitude longitude : Q) (results : json) : Prop :=
  exists r data,
    locations_reply w latitude longitude = Response r /\
    is_success (status_code r) = true /\
    body r = Some data /\
    py_get data "results" = Ok results.


(** A field of a JSON object that is present and not null. *)
Definition field (j : json) (key : string) : option json :=
  match j with
  | JObj fields =>
      match fields !! key with
      | Some JNull | None => None
      | Some v => Some v
      end
  | _ => None
  end.

(** The period-end timestamp of a measurement, when it has one. *)
Definition period_end (measurement : json) : option json :=
  period ← field measurement "period";
  datetimeTo ← field period "datetimeTo";
  field datetimeTo "utc".




(** A stage never lets an upstream status error out. *)
Definition no_status_error {A} (r : result A) : Prop :=
  forall code, r <> Raise (HTTPStatusError code).

(** The filter's verdict on one station, as a boolean: the body of the
    loop of lines 274-292 appends the station. *)
Definition keeps (w : env) (eight_hours_ago : Z) (loc : json) : bool :=
  match is_suitable w eight_hours_ago loc with
  | Ok true => true
  | _ => false
  end.

(** A string without the letter Z. *)
Fixpoint no_Z (s : string) : bool :=
  match s with
  | EmptyString => true
  | String c rest => negb (Ascii.eqb c "Z"%char) && no_Z rest
  end.

(** ** Scenarios *)

Definition obj (fields : list (string * json)) : json :=
  JObj (list_to_map fields).

Definition ok_reply (data : json) : http_reply :=
  Response {| status_code := 200; body := Some data |}.

Definition status_reply (code : Z) : http_reply :=
  Response {| status_code := code; body := Some (obj [("detail", JStr "error")]) |}.

Definition results_of (items : list json) : json :=
  obj [("results", JArr items)].

(** A match of the geocoder. *)
Definition geo_match (lat lon : Q) : json :=
  obj [("position", obj [("lat", JFloat lat); ("lon", JFloat lon)])].

Definition pm25_sensor (id : Z) : json :=
  obj [("id", JInt id); ("parameter", obj [("name", JStr "pm25")])].

Definition o3_sensor (id : Z) : json :=
  obj [("id", JInt id); ("parameter", obj [("name", JStr "o3")])].

Definition station (name : string) (last_updated : json) (sensors : list json) : json :=
  obj [("name", JStr name);
       ("datetimeLast", obj [("utc", last_updated)]);
       ("sensors", JArr sensors)].

Definition measurement (period_end value : json) : json :=
  obj [("period", obj [("datetimeTo", obj [("utc", period_end)])]);
       ("value", value)].

(** 2025-01-01T00:00:00Z, in microseconds since the epoch. *)
Definition new_year : Z := 1735689600 * 1000000.
Definition seconds (n : Z) : Z := n * 1000000.

(** The call is made at noon; the cutoff is 04:00:00. *)
Definition noon : Z := new_year + seconds (12 * 3600).

Definition stale_station : json :=
  station "Stale" (JStr "2025-01-01T03:59:59Z") [pm25_sensor 100].
Definition cutoff_station : json :=
  station "Cutoff" (JStr "2025-01-01T04:00:00Z") [pm25_sensor 101].
Definition inside_station : json :=
  station "Inside" (JStr "2025-01-01T04:00:01Z") [o3_sensor 11; pm25_sensor 102].
Definition undated_station : json :=
  station "Undated" JNull [pm25_sensor 103].
Definition ozone_station : json :=
  station "Ozone" (JStr "2025-01-01T11:00:00Z") [o3_sensor 12].
Definition misdated_station : json :=
  station "Misdated" (JStr "yesterday") [pm25_sensor 104].
Definition failing_station : json :=
  station "Failing" (JStr "2025-01-01T11:00:00Z") [pm25_sensor 500].
Definition patchy_station : json :=
  station "Patchy" (JStr "2025-01-01T11:00:00Z") [pm25_sensor 301].
Definition blank_station : json :=
  station "Blank" (JStr "2025-01-01T11:00:00Z") [pm25_sensor 302].
Definition fresh_station (n : Z) : json :=
  station "Fresh" (JStr "2025-01-01T11:00:00Z") [pm25_sensor (200 + n)].

Definition full_measurement : json :=
  measurement (JStr "2025-01-01T09:00:00Z") (JFloat (125 # 10)).
Definition valueless_measurement : json :=
  measurement (JStr "2025-01-01T10:00:00Z") JNull.
Definition undated_measurement : json :=
  measurement JNull (JFloat (99 # 1)).

(** One world for all the scenarios below.

    - The geocoder knows Paris and Tokyo, finds nothing for "???invalid",
      answers 503 for "Atlantis", a match without a position for
      "Utopia", and does not answer for "Nowhere".
    - The latitude asked of [/v3/locations] chooses the stations found.
    - Sensor 500 answers 500; sensor 301 has a full measurement followed
      by two newer ones with a null; sensor 302 has only such ones; every
      other sensor has one full measurement. *)
Definition demo_geocode (name : string) : http_reply :=
  if String.eqb name "Paris" then
    ok_reply (results_of [geo_match (488566 # 10000) (23522 # 10000)])
  else if String.eqb name "Tokyo" then
    ok_reply (results_of [geo_match (356762 # 10000) (1396503 # 10000);
                          geo_match (0 # 1) (0 # 1)])
  else if String.eqb name "???invalid" then ok_reply (results_of [])
  else if String.eqb name "Atlantis" then status_reply 503
  else if String.eqb name "Utopia" then
    ok_reply (results_of [obj [("address", JStr "Utopia")]])
  else NoResponse.

Definition demo_locations (latitude : Q) : http_reply :=
  match Qnum latitude with
  | 0 => status_reply 500
  | 1 => ok_reply (results_of [])
  | 2 => ok_reply (results_of [stale_station; undated_station; ozone_station])
  | 3 => ok_reply (results_of [cutoff_station])
  | 4 => ok_reply (results_of [stale_station; inside_station; undated_station;
                               fresh_station 1; ozone_station])
  | 5 => ok_reply (results_of [inside_station; misdated_station])
  | 6 => ok_reply (results_of [fresh_station 1; fresh_station 2; fresh_station 3;
                               fresh_station 4; fresh_station 5])
  | 7 => ok_reply (results_of [inside_station; failing_station; blank_station])
  | 8 => ok_reply (results_of [patchy_station])
  | 9 => ok_reply (results_of [inside_station; undated_station])
  | _ => NoResponse
  end.

Definition demo_measurements (sensor_id : json) : http_reply :=
  match sensor_id with
  | JInt 500 => status_reply 500
  | JInt 301 =>
      ok_reply (results_of [full_measurement; valueless_measurement;
                            undated_measurement])
  | JInt 302 => ok_reply (results_of [undated_measurement; valueless_measurement])
  | _ => ok_reply (results_of [full_measurement])
  end.

Definition demo_fromisoformat (s : string) : isoparse :=
  if String.eqb s "2025-01-01T03:59:59+00:00" then
    IsoAware (new_year + seconds (4 * 3600 - 1))
  else if String.eqb s "2025-01-01T04:00:00+00:00" then
    IsoAware (new_year + seconds (4 * 3600))
  else if String.eqb s "2025-01-01T04:00:01+00:00" then
    IsoAware (new_year + seconds (4 * 3600 + 1))
  else if String.eqb s "2025-01-01T11:00:00+00:00" then
    IsoAware (new_year + seconds (11 * 3600))
  else IsoInvalid.

Definition demo : env := {|
  utcnow := noon;
  geocode_reply := fun _ name => demo_geocode name;
  finish_rank := fun i => i;
  locations_reply := fun latitude _ => demo_locations latitude;
  measurements_reply := fun _ sensor_id _ => demo_measurements sensor_id;
  fromisoformat := demo_fromisoformat;
  lax_int := fun _ => None;
  lax_float := fun _ => None;
  random_draw := fun _ => 0%nat;
  tb_lineno := fun e => match e with ValueError => 281 | _ => 0 end;
  exc_str := fun e =>
    match e with
    | ValueError => "Invalid isoformat string: 'yesterday'"
    | _ => "no response"
    end
|}.

(** A successful reading of the scenarios: every full measurement is the
    same. *)
Definition demo_reading (id : Z) (name : string) : AirQualityResult.t :=
  {| AirQualityResult.sensor_id := id;
     AirQualityResult.placename := name;
     AirQualityResult.timestamp := "2025-01-01T09:00:00Z";
     AirQualityResult.pm25 := 125 # 10;
     AirQualityResult.status := "Success." |}.

(** ** More scenarios *)

Definition naive_station : json :=
  station "Naive" (JStr "2025-01-01T11:00:00") [pm25_sensor 105].
Definition numbered_station : json :=
  station "Numbered" (JInt 1735729200) [pm25_sensor 106].
Definition offset_station : json :=
  station "Offset" (JStr "2025-01-01T04:00:01+00:00") [o3_sensor 11; pm25_sensor 102].
Definition bare_station : json :=
  obj [("name", JStr "Bare"); ("datetimeLast", obj [("utc", JStr "2025-01-01T11:00:00Z")])].

(** The world of [demo], but sensor 102 does not answer, sensor 203
    answers with something that is not JSON, and a timestamp without
    offset is read as a naive datetime. *)
Definition outage_locations (latitude : Q) : http_reply :=
  match Qnum latitude with
  | 1 => ok_reply (results_of [inside_station; fresh_station 1])
  | 2 => ok_reply (results_of [fresh_station 3; fresh_station 1; fresh_station 2])
  | 3 => ok_reply (results_of [fresh_station 1; naive_station])
  | 4 => ok_reply (results_of [fresh_station 1; numbered_station])
  | _ => Response {| status_code := 429; body := None |}
  end.

Definition outage_measurements (sensor_id : json) : http_reply :=
  match sensor_id with
  | JInt 102 => NoResponse
  | JInt 203 => Response {| status_code := 200; body := None |}
  | _ => demo_measurements sensor_id
  end.

Definition outage : env := {|
  utcnow := noon;
  geocode_reply := fun _ name => demo_geocode name;
  finish_rank := fun i => (10 - i)%nat;
  locations_reply := fun latitude _ => outage_locations latitude;
  measurements_reply := fun _ sensor_id _ => outage_measurements sensor_id;
  fromisoformat := fun s =>
    if String.eqb s "2025-01-01T11:00:00" then IsoNaive else demo_fromisoformat s;
  lax_int := fun _ => None;
  lax_float := fun _ => None;
  random_draw := fun _ => 0%nat;
  tb_lineno := fun e =>
    match e with
    | RequestError => 329
    | JSONDecodeError => 335
    | TypeError => 284
    | AttributeError _ => 282
    | _ => 0
    end;
  exc_str := fun e =>
    match e with
    | RequestError => "All connection attempts failed"
    | JSONDecodeError => "Expecting value: line 1 column 1 (char 0)"
    | TypeError => "can't compare offset-naive and offset-aware datetimes"
    | AttributeError _ => "'int' object has no attribute 'replace'"
    | _ => "error"
    end
|}.



(** * Properties *)

(** ** Tactics and basic facts *)

(** Case analysis on the first call of a sequence of statements. *)
Ltac bind_case :=
  match goal with
  | |- context [mbind _ ?m] =>
      let E := fresh "E" in destruct m eqn:E; simpl; try discriminate
  end.

Lemma client_get_Response (reply : http_reply) (r : response) :
  reply = Response r -> client_get reply = Ok r.
Proof. intros ->. reflexivity. Qed.

Lemma raise_for_status_success (r : response) :
  is_success (status_code r) = true -> raise_for_status r = Ok tt.
Proof. unfold raise_for_status. intros ->. reflexivity. Qed.

Lemma raise_for_status_error (r : response) :
  is_success (status_code r) = false ->
  raise_for_status r = Raise (HTTPStatusError (status_code r)).
Proof. unfold raise_for_status. intros ->. reflexivity. Qed.

Lemma response_json_body (r : response) (data : json) :
  body r = Some data -> response_json r = Ok data.
Proof. unfold response_json. intros ->. reflexivity. Qed.

(** ** Geocoding *)

Lemma first_raised_None {A} (rank : nat -> nat) (i : nat) (rs : list (result A)) :
  Forall returns rs -> first_raised rank i rs = None.
Proof.
  intros H. revert i. induction H as [|r rs [a ->] _ IH]; intros i; simpl.
  - reflexivity.
  - apply IH.
Qed.

Lemma returned_all {A} (rs : list (result A)) :
  Forall returns rs -> Ok <$> returned rs = rs.
Proof.
  induction 1 as [|r rs [a ->] _ IH]; csimpl; [reflexivity|].
  f_equal. exact IH.
Qed.

Lemma gather_all_returned {A} (rank : nat -> nat) (rs : list (result A)) :
  Forall returns rs ->
  gather rank rs = Ok (returned rs) /\ Ok <$> returned rs = rs.
Proof.
  intros H. unfold gather. rewrite (first_raised_None _ _ _ H).
  split; [reflexivity | apply returned_all, H].
Qed.

Lemma gather_singleton {A} (rank : nat -> nat) (r : result A) :
  gather rank [r] = (fun a => [a]) <$> r.
Proof. destruct r as [a|e]; reflexivity. Qed.

Lemma tasks_lookup (w : env) (placenames : list string) (i : nat) :
  imap (_get_one_semaphored w) placenames !! i
  = _geocode_one_placename w i <$> placenames !! i.
Proof. unfold _get_one_semaphored. apply list_lookup_imap. Qed.

(** A batch whose lookups all return has one outcome per name, in the
    order of the names. *)
Lemma batch_of_returning_lookups (w : env) (placenames : list string) :
  (forall i p, placenames !! i = Some p -> returns (_geocode_one_placename w i p)) ->
  exists outcomes,
    placenames_to_latlons w placenames = Ok outcomes /\
    length outcomes = length placenames /\
    forall i p o, placenames !! i = Some p ->
      _geocode_one_placename w i p = Ok o -> outcomes !! i = Some o.
Proof.
  intros Hret.
  set (tasks := imap (_get_one_semaphored w) placenames).
  assert (Hall : Forall returns tasks).
  { apply Forall_lookup. intros i r Hi. unfold tasks in Hi.
    rewrite tasks_lookup in Hi.
    destruct (placenames !! i) as [p|] eqn:Hp; [|discriminate].
    injection Hi as <-. apply (Hret i p Hp). }
  destruct (gather_all_returned (finish_rank w) tasks Hall) as [Hg Hmap].
  exists (returned tasks). split; [exact Hg|]. split.
  - rewrite <- (length_fmap Ok), Hmap. apply length_imap.
  - intros i p o Hp Ho.
    assert (Hi : (Ok <$> returned tasks) !! i = Some (Ok o)).
    { rewrite Hmap. unfold tasks. rewrite tasks_lookup, Hp. simpl.
      f_equal. exact Ho. }
    rewrite list_lookup_fmap in Hi.
    destruct (returned tasks !! i) as [o'|]; [|discriminate].
    injection Hi as ->. reflexivity.
Qed.

Lemma make_keeps_placename (w : env) (lat lon : json) (msg p : string)
    (o : GeocodePlacenameResponse.t) :
  GeocodePlacenameResponse.make w lat lon msg p = Ok o ->
  GeocodePlacenameResponse.placename o = p.
Proof.
  unfold GeocodePlacenameResponse.make.
  destruct (validate_float w lat), (validate_float w lon);
    intros [= <-] || discriminate.
  reflexivity.
Qed.

Lemma geocode_try_keeps_placename (w : env) (i : nat) (p : string)
    (o : GeocodePlacenameResponse.t) :
  geocode_try w i p = Ok o -> GeocodePlacenameResponse.placename o = p.
Proof.
  unfold geocode_try.
  repeat bind_case; destruct (truthy _); simpl; try discriminate;
    first [ apply make_keeps_placename | intros [= <-]; reflexivity ].
Qed.

Lemma geocode_keeps_placename (w : env) (i : nat) (p : string)
    (o : GeocodePlacenameResponse.t) :
  _geocode_one_placename w i p = Ok o -> GeocodePlacenameResponse.placename o = p.
Proof.
  unfold _geocode_one_placename.
  destruct (geocode_try w i p) as [o'|e] eqn:E.
  - intros [= <-]. eapply geocode_try_keeps_placename, E.
  - destruct e; intros [= <-] || discriminate. reflexivity.
Qed.

(** The handler of lines 159-165. *)
Lemma geocode_status_error (w : env) (i : nat) (p : string) (code : Z) :
  geocode_try w i p = Raise (HTTPStatusError code) ->
  _geocode_one_placename w i p
  = Ok (GeocodePlacenameResponse.failure p
          ("upstream error (status code=" +:+ pretty code +:+ ")")).
Proof. unfold _geocode_one_placename. intros ->. reflexivity. Qed.

Lemma geocode_try_status_error (w : env) (i : nat) (p : string) (r : response) :
  geocode_reply w i p = Response r ->
  is_success (status_code r) = false ->
  geocode_try w i p = Raise (HTTPStatusError (status_code r)).
Proof.
  intros Hr Hs. unfold geocode_try.
  rewrite (client_get_Response _ _ Hr). simpl.
  rewrite (raise_for_status_error _ Hs). reflexivity.
Qed.

Lemma first_raised_None_inv {A} (rank : nat -> nat) (rs : list (result A)) :
  forall i, first_raised rank i rs = None -> Forall returns rs.
Proof.
  induction rs as [|r rs IH]; intros i H; [constructor|].
  simpl in H. destruct r as [a|e].
  - constructor; [exists a; reflexivity | apply (IH (S i) H)].
  - destruct (first_raised rank (S i) rs) as [[j e']|]; [|discriminate].
    destruct (rank j <? rank i)%nat; discriminate.
Qed.

Lemma gather_Ok_inv {A} (rank : nat -> nat) (rs : list (result A)) (values : list A) :
  gather rank rs = Ok values -> Forall returns rs /\ values = returned rs.
Proof.
  unfold gather.
  destruct (first_raised rank 0 rs) as [[j e]|] eqn:E; [discriminate|].
  intros [= <-]. split; [apply (first_raised_None_inv rank rs 0%nat E) | reflexivity].
Qed.

(** A batch returns exactly when each of its lookups does. *)
Lemma batch_returns_iff (w : env) (placenames : list string) :
  (forall i p, placenames !! i = Some p -> returns (_geocode_one_placename w i p))
  <-> returns (placenames_to_latlons w placenames).
Proof.
  split.
  - intros Hret.
    destruct (batch_of_returning_lookups w placenames Hret) as (outcomes & H & _).
    exists outcomes. exact H.
  - intros [outcomes H] i p Hp. unfold placenames_to_latlons in H.
    apply gather_Ok_inv in H as [Hall _].
    apply (proj1 (Forall_lookup _ _) Hall i).
    rewrite tasks_lookup, Hp. reflexivity.
Qed.

(** ** The outcomes of the geocoding operations *)

(** C9: [placename_to_latlon] on a name and [placenames_to_latlons] on
    the list of that one name give the same outcome (or raise the same
    exception): both call [_geocode_one_placename] on the first request
    of their call. *)
Theorem single_is_singleton_batch (w : env) (p : string) :
  placenames_to_latlons w [p] = (fun o => [o]) <$> placename_to_latlon w p.
Proof.
  unfold placenames_to_latlons, placename_to_latlon, _get_one_semaphored.
  simpl imap. apply gather_singleton.
Qed.

(** C3 (amended): [placenames_to_latlons] returns exactly when every
    lookup of the batch ends in an outcome (a match, no match, or an upstream
    error status), and then it returns as many outcomes as there are
    names, the [i]-th outcome being the one of the [i]-th name: it is
    what [_geocode_one_placename] returns for it and it carries that
    name. *)
Theorem batch_order_preserved (w : env) (placenames : list string) :
  ((forall i p, placenames !! i = Some p ->
      returns (_geocode_one_placename w i p))
   <-> returns (placenames_to_latlons w placenames)) /\
  (forall outcomes,
     placenames_to_latlons w placenames = Ok outcomes ->
     length outcomes = length placenames /\
     forall i p, placenames !! i = Some p ->
       exists o, outcomes !! i = Some o /\
                 _geocode_one_placename w i p = Ok o /\
                 GeocodePlacenameResponse.placename o = p).
Proof.
  split; [apply batch_returns_iff|].
  intros outcomes Hbatch.
  assert (Hret : forall i p, placenames !! i = Some p ->
                   returns (_geocode_one_placename w i p)).
  { apply batch_returns_iff. exists outcomes. exact Hbatch. }
  destruct (batch_of_returning_lookups w placenames Hret)
    as (outcomes' & Hbatch' & Hlen & Hnth).
  rewrite Hbatch in Hbatch'. injection Hbatch' as <-.
  split; [exact Hlen|].
  intros i p Hp. destruct (Hret i p Hp) as [o Ho].
  exists o. repeat split.
  - apply (Hnth i p o Hp Ho).
  - exact Ho.
  - apply (geocode_keeps_placename w i p o Ho).
Qed.

(** C3 in the scenario: a batch with a repeated name, a name without
    match and a name the geocoder refuses has five outcomes, each at the
    position of its name. *)
Lemma batch_order_preserved_demo :
  placenames_to_latlons demo ["Paris"; "???invalid"; "Tokyo"; "Paris"; "Atlantis"]
  = Ok [ {| GeocodePlacenameResponse.latitude := 488566 # 10000;
            GeocodePlacenameResponse.longitude := 23522 # 10000;
            GeocodePlacenameResponse.placename := "Paris";
            GeocodePlacenameResponse.message := "ok" |};
         GeocodePlacenameResponse.failure "???invalid" "error resolving placename";
         {| GeocodePlacenameResponse.latitude := 356762 # 10000;
            GeocodePlacenameResponse.longitude := 1396503 # 10000;
            GeocodePlacenameResponse.placename := "Tokyo";
            GeocodePlacenameResponse.message := "ok" |};
         {| GeocodePlacenameResponse.latitude := 488566 # 10000;
            GeocodePlacenameResponse.longitude := 23522 # 10000;
            GeocodePlacenameResponse.placename := "Paris";
            GeocodePlacenameResponse.message := "ok" |};
         GeocodePlacenameResponse.failure "Atlantis" "upstream error (status code=503)" ] /\
  (exists outcomes,
     placenames_to_latlons demo ["Paris"; "???invalid"; "Tokyo"; "Paris"; "Atlantis"]
     = Ok outcomes /\
     length outcomes = 5%nat /\
     exists o, outcomes !! 2%nat = Some o /\
               _geocode_one_placename demo 2 "Tokyo" = Ok o /\
               GeocodePlacenameResponse.placename o = "Tokyo").
Proof.
  split; [vm_compute; reflexivity|].
  destruct (batch_order_preserved demo
              ["Paris"; "???invalid"; "Tokyo"; "Paris"; "Atlantis"]) as [Hiff Hpos].
  destruct (proj1 Hiff) as [outcomes Hbatch].
  { intros i p Hp.
    do 5 (destruct i as [|i];
          [injection Hp as <-; eexists; vm_compute; reflexivity|]).
    discriminate Hp. }
  exists outcomes. split; [exact Hbatch|].
  destruct (Hpos outcomes Hbatch) as [Hlen Hnth].
  split; [exact Hlen|]. apply (Hnth 2%nat "Tokyo"). reflexivity.
Defined.


(** C3: in a batch of three names of which the second gets no response,
    the lookups of the first and of the third name end in an outcome,
    and the batch returns none: it raises the exception of the
    second. *)
Lemma batch_loses_every_outcome :
  returns (_geocode_one_placename demo 0 "Paris") /\
  _geocode_one_placename demo 1 "Nowhere" = Raise RequestError /\
  returns (_geocode_one_placename demo 2 "Tokyo") /\
  placenames_to_latlons demo ["Paris"; "Nowhere"; "Tokyo"] = Raise RequestError.
Proof.
  split; [|split; [|split]].
  - eexists. vm_compute. reflexivity.
  - vm_compute. reflexivity.
  - eexists. vm_compute. reflexivity.
  - vm_compute. reflexivity.
Qed.

(** C6: the outcome of one lookup.  When the geocoder answers with an
    error status, the coordinates are 0.0 and the message names the
    status code (and is not empty); when it answers with no results, the
    coordinates are 0.0 and the message is "error resolving placename";
    when it answers with matches, the coordinates are those of the
    position of the first match, as the model validates them into
    floats, and the message is "ok". *)
Theorem geocode_outcome (w : env) (i : nat) (p : string) (r : response) :
  geocode_reply w i p = Response r ->
  (is_success (status_code r) = false ->
     _geocode_one_placename w i p
     = Ok {| GeocodePlacenameResponse.latitude := 0%Q;
             GeocodePlacenameResponse.longitude := 0%Q;
             GeocodePlacenameResponse.placename := p;
             GeocodePlacenameResponse.message :=
               "upstream error (status code=" +:+ pretty (status_code r) +:+ ")" |}
     /\ "upstream error (status code=" +:+ pretty (status_code r) +:+ ")" <> "") /\
  (forall data results,
     is_success (status_code r) = true ->
     body r = Some data ->
     py_get data "results" = Ok results ->
     truthy results = false ->
     _geocode_one_placename w i p
     = Ok {| GeocodePlacenameResponse.latitude := 0%Q;
             GeocodePlacenameResponse.longitude := 0%Q;
             GeocodePlacenameResponse.placename := p;
             GeocodePlacenameResponse.message := "error resolving placename" |}) /\
  (forall data first others position lat lon la lo,
     is_success (status_code r) = true ->
     body r = Some data ->
     py_get data "results" = Ok (JArr (first :: others)) ->
     py_getitem first "position" = Ok position ->
     py_getitem position "lat" = Ok lat ->
     py_getitem position "lon" = Ok lon ->
     validate_float w lat = Ok la ->
     validate_float w lon = Ok lo ->
     _geocode_one_placename w i p
     = Ok {| GeocodePlacenameResponse.latitude := la;
             GeocodePlacenameResponse.longitude := lo;
             GeocodePlacenameResponse.placename := p;
             GeocodePlacenameResponse.message := "ok" |}).
Proof.
  intros Hr. split; [|split].
  - intros Hs. split; [|discriminate].
    apply geocode_status_error, geocode_try_status_error; assumption.
  - intros data results Hs Hb Hres Hfalsy.
    unfold _geocode_one_placename, geocode_try.
    rewrite (client_get_Response _ _ Hr). simpl.
    rewrite (raise_for_status_success _ Hs). simpl.
    rewrite (response_json_body _ _ Hb). simpl.
    rewrite Hres. simpl. rewrite Hfalsy. reflexivity.
  - intros data first others position lat lon la lo Hs Hb Hres Hpos Hlat Hlon Hla Hlo.
    unfold _geocode_one_placename, geocode_try.
    rewrite (client_get_Response _ _ Hr). simpl.
    rewrite (raise_for_status_success _ Hs). simpl.
    rewrite (response_json_body _ _ Hb). simpl.
    rewrite Hres. simpl. rewrite Hpos. simpl. rewrite Hlat. simpl.
    rewrite Hlon. simpl.
    unfold GeocodePlacenameResponse.make. rewrite Hla, Hlo. reflexivity.
Qed.

(** C6 in the scenario: "Atlantis" is answered with status 503,
    "???invalid" with no results, "Tokyo" with two matches. *)
Lemma geocode_outcome_demo :
  _geocode_one_placename demo 0 "Atlantis"
  = Ok {| GeocodePlacenameResponse.latitude := 0%Q;
          GeocodePlacenameResponse.longitude := 0%Q;
          GeocodePlacenameResponse.placename := "Atlantis";
          GeocodePlacenameResponse.message := "upstream error (status code=503)" |} /\
  _geocode_one_placename demo 1 "???invalid"
  = Ok {| GeocodePlacenameResponse.latitude := 0%Q;
          GeocodePlacenameResponse.longitude := 0%Q;
          GeocodePlacenameResponse.placename := "???invalid";
          GeocodePlacenameResponse.message := "error resolving placename" |} /\
  _geocode_one_placename demo 2 "Tokyo"
  = Ok {| GeocodePlacenameResponse.latitude := 356762 # 10000;
          GeocodePlacenameResponse.longitude := 1396503 # 10000;
          GeocodePlacenameResponse.placename := "Tokyo";
          GeocodePlacenameResponse.message := "ok" |}.
Proof.
  split; [|split].
  - apply (geocode_outcome demo 0 "Atlantis"
             {| status_code := 503; body := Some (obj [("detail", JStr "error")]) |});
      reflexivity.
  - apply (geocode_outcome demo 1 "???invalid"
             {| status_code := 200; body := Some (results_of []) |})
      with (data := results_of []) (results := JArr []); reflexivity.
  - apply (geocode_outcome demo 2 "Tokyo"
             {| status_code := 200;
                body := Some (results_of [geo_match (356762 # 10000) (1396503 # 10000);
                                          geo_match (0 # 1) (0 # 1)]) |})
      with (data := results_of [geo_match (356762 # 10000) (1396503 # 10000);
                                geo_match (0 # 1) (0 # 1)])
           (first := geo_match (356762 # 10000) (1396503 # 10000))
           (others := [geo_match (0 # 1) (0 # 1)])
           (position := obj [("lat", JFloat (356762 # 10000));
                             ("lon", JFloat (1396503 # 10000))])
           (lat := JFloat (356762 # 10000)) (lon := JFloat (1396503 # 10000));
      reflexivity.
Defined.

(** ** The loop over the shuffled stations *)

Lemma collect_cons (w : env) (c : Z) (k : nat) (acc : list AirQualityResult.t)
    (loc : json) (rest : list json) :
  collect w c k acc (loc :: rest)
  = if (3 <=? length acc)%nat then Ok acc
    else
      reading ← visit w c k loc;
      collect w c (S k) (acc ++ option_list reading) rest.
Proof.
  cbn [collect]. destruct (3 <=? length acc)%nat; [reflexivity|].
  destruct (visit w c k loc) as [[r|]|e]; simpl; rewrite ?app_nil_r; reflexivity.
Qed.


Lemma collect_visit (w : env) (c : Z) (k : nat) (acc : list AirQualityResult.t)
    (loc : json) (rest : list json) (reading : option AirQualityResult.t) :
  (length acc < 3)%nat ->
  visit w c k loc = Ok reading ->
  collect w c k acc (loc :: rest)
  = collect w c (S k) (acc ++ option_list reading) rest.
Proof.
  intros H Hv. rewrite collect_cons.
  destruct (Nat.leb_spec 3 (length acc)); [lia|].
  rewrite Hv. reflexivity.
Qed.

Lemma collect_raise (w : env) (c : Z) (k : nat) (acc : list AirQualityResult.t)
    (loc : json) (rest : list json) (e : pyexn) :
  (length acc < 3)%nat ->
  visit w c k loc = Raise e ->
  collect w c k acc (loc :: rest) = Raise e.
Proof.
  intros H Hv. rewrite collect_cons.
  destruct (Nat.leb_spec 3 (length acc)); [lia|].
  rewrite Hv. reflexivity.
Qed.

Lemma collect_length (w : env) (c : Z) (locations : list json) :
  forall (k : nat) (acc readings : list AirQualityResult.t),
  (length acc <= 3)%nat ->
  collect w c k acc locations = Ok readings ->
  (length readings <= 3)%nat.
Proof.
  induction locations as [|loc rest IH]; intros k acc readings Hacc.
  - intros [= <-]. exact Hacc.
  - rewrite collect_cons.
    destruct (Nat.leb_spec 3 (length acc)) as [Hfull|Hroom].
    + intros [= <-]. exact Hacc.
    + destruct (visit w c k loc) as [[r|]|e]; simpl; [| |discriminate].
      * apply IH. rewrite length_app. simpl. lia.
      * apply IH. rewrite app_nil_r. exact Hacc.
Qed.


(** ** The shuffle *)

Lemma swap_Permutation {A} (i j : nat) (x : list A) : swap i j x ≡ₚ x.
Proof.
  unfold swap.
  destruct (x !! i) as [xi|] eqn:Hi; [|reflexivity].
  destruct (x !! j) as [xj|] eqn:Hj; [|reflexivity].
  apply Permutation_insert_swap; assumption.
Qed.

Lemma shuffle_from_Permutation {A} (draw : nat -> nat) (i : nat) :
  forall x : list A, shuffle_from draw i x ≡ₚ x.
Proof.
  induction i as [|i IH]; intros x; simpl; [reflexivity|].
  rewrite IH. apply swap_Permutation.
Qed.

Lemma shuffle_Permutation {A} (draw : nat -> nat) (x : list A) :
  shuffle draw x ≡ₚ x.
Proof. apply shuffle_from_Permutation. Qed.

(** ** The call as a whole *)

Lemma discovery_found (w : env) (lat lon : Q) (results : json) :
  discovers w lat lon results ->
  get_air_quality_try w lat lon
  = if negb (truthy results) then
      Ok [AirQualityResult.sentinel "Error. No locations found near coordinates."]
    else select_readings w results.
Proof.
  intros (r & data & Hr & Hs & Hb & Hres). unfold get_air_quality_try.
  rewrite (client_get_Response _ _ Hr). simpl.
  rewrite (raise_for_status_success _ Hs). simpl.
  rewrite (response_json_body _ _ Hb). simpl.
  rewrite Hres. reflexivity.
Qed.

Lemma select_readings_collect (w : env) (results : json)
    (locations suitable : list json) :
  py_iter results = Ok locations ->
  suitable_loop w (utcnow w - eight_hours) [] locations = Ok suitable ->
  suitable <> [] ->
  select_readings w results
  = collect w (utcnow w - eight_hours) 0 [] (shuffle (random_draw w) suitable).
Proof.
  intros Hiter Hloop Hne. unfold select_readings. rewrite Hiter. simpl.
  rewrite Hloop. simpl. destruct suitable; [contradiction|reflexivity].
Qed.

Lemma select_readings_length (w : env) (results : json)
    (readings : list AirQualityResult.t) :
  select_readings w results = Ok readings -> (length readings <= 3)%nat.
Proof.
  unfold select_readings.
  destruct (py_iter results) as [locations|e]; simpl; [|discriminate].
  destruct (suitable_loop _ _ _ _) as [[|loc suitable]|e]; simpl; [| |discriminate].
  - intros [= <-]. simpl. lia.
  - apply collect_length. simpl. lia.
Qed.

Lemma try_length (w : env) (lat lon : Q) (readings : list AirQualityResult.t) :
  get_air_quality_try w lat lon = Ok readings -> (length readings <= 3)%nat.
Proof.
  unfold get_air_quality_try.
  destruct (client_get _) as [r|e]; simpl; [|discriminate].
  destruct (raise_for_status r) as [[]|e]; simpl; [|discriminate].
  destruct (response_json r) as [data|e]; simpl; [|discriminate].
  destruct (py_get data "results") as [results|e]; simpl; [|discriminate].
  destruct (truthy results); simpl.
  - apply select_readings_length.
  - intros [= <-]. simpl. lia.
Qed.

(** The handlers of lines 371-396. *)
Lemma handler_returns (w : env) (lat lon : Q) :
  returns (get_air_quality w lat lon).
Proof.
  unfold get_air_quality.
  destruct (get_air_quality_try w lat lon) as [readings|e].
  - exists readings. reflexivity.
  - destruct e; eexists; reflexivity.
Qed.

Lemma handler_Ok (w : env) (lat lon : Q) (readings : list AirQualityResult.t) :
  get_air_quality_try w lat lon = Ok readings ->
  get_air_quality w lat lon = Ok readings.
Proof. unfold get_air_quality. intros ->. reflexivity. Qed.

Lemma handler_status_error (w : env) (lat lon : Q) (code : Z) :
  get_air_quality_try w lat lon = Raise (HTTPStatusError code) ->
  get_air_quality w lat lon
  = Ok [AirQualityResult.sentinel ("API error: " +:+ pretty code)].
Proof. unfold get_air_quality. intros ->. reflexivity. Qed.

Lemma handler_unexpected (w : env) (lat lon : Q) (e : pyexn) :
  (forall code, e <> HTTPStatusError code) ->
  get_air_quality_try w lat lon = Raise e ->
  get_air_quality w lat lon
  = Ok [AirQualityResult.sentinel (unexpected_status w e)].
Proof.
  unfold get_air_quality. intros Hne ->.
  destruct e as [code| | | | | | | |]; try reflexivity.
  destruct (Hne code). reflexivity.
Qed.

Lemma handler_sentinel (w : env) (lat lon : Q) (e : pyexn) :
  get_air_quality_try w lat lon = Raise e ->
  exists st, st <> "" /\
    get_air_quality w lat lon = Ok [AirQualityResult.sentinel st].
Proof.
  unfold get_air_quality. intros ->.
  destruct e; eexists; (split; [|reflexivity]); discriminate.
Qed.



(** ** The most recent valid measurement *)
















(** ** The freshness and capability filter *)

Lemma suitable_loop_cons (w : env) (c : Z) (kept : list json) (loc : json)
    (rest : list json) :
  suitable_loop w c kept (loc :: rest)
  = (keep ← is_suitable w c loc;
     suitable_loop w c (if keep : bool then kept ++ [loc] else kept) rest).
Proof. reflexivity. Qed.

Lemma suitable_loop_app (w : env) (c : Z) (before after : list json) :
  forall kept,
  suitable_loop w c kept (before ++ after)
  = (kept' ← suitable_loop w c kept before; suitable_loop w c kept' after).
Proof.
  induction before as [|loc before IH]; intros kept; [reflexivity|].
  simpl. destruct (is_suitable w c loc) as [keep|e]; simpl; [|reflexivity].
  apply IH.
Qed.

Lemma suitable_loop_skip (w : env) (c : Z) (kept : list json) (loc : json)
    (rest : list json) :
  is_suitable w c loc = Ok false ->
  suitable_loop w c kept (loc :: rest) = suitable_loop w c kept rest.
Proof. intros H. rewrite suitable_loop_cons, H. reflexivity. Qed.

Lemma suitable_loop_keep (w : env) (c : Z) (kept : list json) (loc : json)
    (rest : list json) :
  is_suitable w c loc = Ok true ->
  suitable_loop w c kept (loc :: rest) = suitable_loop w c (kept ++ [loc]) rest.
Proof. intros H. rewrite suitable_loop_cons, H. reflexivity. Qed.

Lemma is_suitable_undated (w : env) (c : Z) (loc u : json) :
  last_updated_str loc = Ok u -> truthy u = false ->
  is_suitable w c loc = Ok false.
Proof. unfold is_suitable. intros -> Hu. simpl. rewrite Hu. reflexivity. Qed.

Lemma truthy_nonempty (s : string) : s <> "" -> truthy (JStr s) = true.
Proof.
  intros H. simpl. destruct (String.eqb_spec s ""); [contradiction|reflexivity].
Qed.

Lemma is_suitable_dated (w : env) (c : Z) (loc : json) (s : string) :
  last_updated_str loc = Ok (JStr s) -> s <> "" ->
  is_suitable w c loc
  = match fromisoformat w (replace_Z s) with
    | IsoInvalid => Raise ValueError
    | IsoNaive => Raise TypeError
    | IsoAware last_updated =>
        if last_updated <? c then Ok false else has_pm25 loc
    end.
Proof.
  unfold is_suitable. intros -> Hs. cbn [mbind result_bind].
  rewrite (truthy_nonempty s Hs). reflexivity.
Qed.

(** C1 (amended): the freshness test of the filter, against the
    instant of the call.  A station without a last-updated timestamp is
    dropped; a station whose timestamp is more than 8 hours old is
    dropped; a station whose timestamp is at most 8 hours old, the
    cutoff itself included, passes the test: it is kept exactly when it
    has a pm25 sensor. *)
Theorem freshness_filter (w : env) (loc : json) (kept rest : list json) :
  let eight_hours_ago := utcnow w - eight_hours in
  (forall u,
     last_updated_str loc = Ok u -> truthy u = false ->
     is_suitable w eight_hours_ago loc = Ok false /\
     suitable_loop w eight_hours_ago kept (loc :: rest)
     = suitable_loop w eight_hours_ago kept rest) /\
  (forall s last_updated,
     last_updated_str loc = Ok (JStr s) -> s <> "" ->
     fromisoformat w (replace_Z s) = IsoAware last_updated ->
     (eight_hours < utcnow w - last_updated ->
        is_suitable w eight_hours_ago loc = Ok false /\
        suitable_loop w eight_hours_ago kept (loc :: rest)
        = suitable_loop w eight_hours_ago kept rest) /\
     (utcnow w - last_updated <= eight_hours ->
        is_suitable w eight_hours_ago loc = has_pm25 loc /\
        (has_pm25 loc = Ok true ->
         suitable_loop w eight_hours_ago kept (loc :: rest)
         = suitable_loop w eight_hours_ago (kept ++ [loc]) rest))).
Proof.
  intros c. split.
  - intros u Hu Hfalsy.
    pose proof (is_suitable_undated w c loc u Hu Hfalsy) as H.
    split; [exact H | apply suitable_loop_skip, H].
  - intros s last_updated Hstr Hs Hiso.
    pose proof (is_suitable_dated w c loc s Hstr Hs) as H.
    rewrite Hiso in H. split.
    + intros Hold. destruct (Z.ltb_spec last_updated c) as [_|Hge].
      * split; [exact H | apply suitable_loop_skip, H].
      * unfold c in Hge. lia.
    + intros Hnew. destruct (Z.ltb_spec last_updated c) as [Hlt|_].
      * unfold c in Hlt. lia.
      * split; [exact H|]. intros Hpm. rewrite Hpm in H.
        apply suitable_loop_keep, H.
Qed.

(** C1 (amended) in the scenario, the call being made at 12:00:00: the
    station without a timestamp and the one last updated at 03:59:59 are
    dropped, the ones last updated at 04:00:00 and at 04:00:01 are
    kept. *)
Lemma freshness_filter_demo :
  suitable_loop demo (utcnow demo - eight_hours) [] [undated_station; inside_station]
  = suitable_loop demo (utcnow demo - eight_hours) [] [inside_station] /\
  suitable_loop demo (utcnow demo - eight_hours) [] [stale_station; inside_station]
  = suitable_loop demo (utcnow demo - eight_hours) [] [inside_station] /\
  suitable_loop demo (utcnow demo - eight_hours) [] [cutoff_station; inside_station]
  = suitable_loop demo (utcnow demo - eight_hours) [cutoff_station] [inside_station] /\
  suitable_loop demo (utcnow demo - eight_hours) [] [inside_station; stale_station]
  = suitable_loop demo (utcnow demo - eight_hours) [inside_station] [stale_station].
Proof.
  split; [|split; [|split]].
  - apply (freshness_filter demo undated_station [] [inside_station]) with (u := JNull);
      reflexivity.
  - apply (freshness_filter demo stale_station [] [inside_station])
      with (s := "2025-01-01T03:59:59Z") (last_updated := new_year + seconds (4 * 3600 - 1));
      [reflexivity | discriminate | reflexivity | vm_compute; reflexivity].
  - apply (freshness_filter demo cutoff_station [] [inside_station])
      with (s := "2025-01-01T04:00:00Z") (last_updated := new_year + seconds (4 * 3600));
      [reflexivity | discriminate | reflexivity | vm_compute; discriminate | reflexivity].
  - apply (freshness_filter demo inside_station [] [stale_station])
      with (s := "2025-01-01T04:00:01Z") (last_updated := new_year + seconds (4 * 3600 + 1));
      [reflexivity | discriminate | reflexivity | vm_compute; discriminate | reflexivity].
Defined.

(** C1: a station last updated at 04:00:00, eight hours to the
    microsecond before a call made at 12:00:00, is suitable, and the
    call returns its reading. *)
Lemma cutoff_station_is_kept :
  last_updated_str cutoff_station = Ok (JStr "2025-01-01T04:00:00Z") /\
  fromisoformat demo (replace_Z "2025-01-01T04:00:00Z")
  = IsoAware (utcnow demo - eight_hours) /\
  is_suitable demo (utcnow demo - eight_hours) cutoff_station = Ok true /\
  suitable_loop demo (utcnow demo - eight_hours) [] [cutoff_station]
  = Ok [cutoff_station] /\
  get_air_quality demo 3 0 = Ok [demo_reading 101 "Cutoff"].
Proof. repeat split; vm_compute; reflexivity. Qed.

(** ** Stage outcomes *)

Lemma try_status_error (w : env) (lat lon : Q) (r : response) :
  locations_reply w lat lon = Response r ->
  is_success (status_code r) = false ->
  get_air_quality_try w lat lon = Raise (HTTPStatusError (status_code r)).
Proof.
  intros Hr Hs. unfold get_air_quality_try.
  rewrite (client_get_Response _ _ Hr). simpl.
  rewrite (raise_for_status_error _ Hs). reflexivity.
Qed.

Lemma fetch_status_error (w : env) (c : Z) (k : nat) (sensor_id : json)
    (r : response) :
  measurements_reply w k sensor_id c = Response r ->
  is_success (status_code r) = false ->
  fetch_measurements w c k sensor_id = Ok None.
Proof.
  intros Hr Hs. unfold fetch_measurements.
  rewrite (client_get_Response _ _ Hr). simpl.
  rewrite (raise_for_status_error _ Hs). reflexivity.
Qed.

(** C7: the outcomes of the stages of [get_air_quality].  An error
    status of the discovery request gives one sentinel reading whose
    status carries the code; an empty [results] gives one sentinel
    reading with status "Error. No locations found near coordinates.";
    stations of which none is suitable give the empty list; an error
    status of the measurements request of one sensor makes the loop
    pass over that station and go on with the next. *)
Theorem stage_outcomes (w : env) (lat lon : Q) :
  (forall r,
     locations_reply w lat lon = Response r ->
     is_success (status_code r) = false ->
     get_air_quality w lat lon
     = Ok [{| AirQualityResult.sensor_id := 0;
              AirQualityResult.placename := "";
              AirQualityResult.timestamp := "";
              AirQualityResult.pm25 := (-1)%Q;
              AirQualityResult.status := "API error: " +:+ pretty (status_code r) |}]) /\
  (forall results,
     discovers w lat lon results ->
     truthy results = false ->
     get_air_quality w lat lon
     = Ok [{| AirQualityResult.sensor_id := 0;
              AirQualityResult.placename := "";
              AirQualityResult.timestamp := "";
              AirQualityResult.pm25 := (-1)%Q;
              AirQualityResult.status :=
                "Error. No locations found near coordinates." |}]) /\
  (forall results locations,
     discovers w lat lon results ->
     truthy results = true ->
     py_iter results = Ok locations ->
     suitable_loop w (utcnow w - eight_hours) [] locations = Ok [] ->
     get_air_quality w lat lon = Ok []) /\
  (forall c k acc loc rest sensor_id r,
     (length acc < 3)%nat ->
     locate_sensor loc = Ok (Some sensor_id) ->
     measurements_reply w k sensor_id c = Response r ->
     is_success (status_code r) = false ->
     visit w c k loc = Ok None /\
     collect w c k acc (loc :: rest) = collect w c (S k) acc rest).
Proof.
  split; [|split; [|split]].
  - intros r Hr Hs.
    apply handler_status_error, try_status_error; assumption.
  - intros results Hd Hfalsy. apply handler_Ok.
    rewrite (discovery_found _ _ _ _ Hd), Hfalsy. reflexivity.
  - intros results locations Hd Htruthy Hiter Hnone. apply handler_Ok.
    rewrite (discovery_found _ _ _ _ Hd), Htruthy. simpl.
    unfold select_readings. rewrite Hiter. simpl. rewrite Hnone. reflexivity.
  - intros c k acc loc rest sensor_id r Hroom Hloc Hr Hs.
    assert (Hv : visit w c k loc = Ok None).
    { unfold visit. rewrite Hloc. simpl.
      rewrite (fetch_status_error _ _ _ _ _ Hr Hs). reflexivity. }
    split; [exact Hv|].
    rewrite (collect_visit _ _ _ _ _ _ _ Hroom Hv). simpl.
    rewrite app_nil_r. reflexivity.
Qed.

(** C7 in the scenarios: discovery answered with status 500, with no
    station, with three stations of which none is suitable, and a
    station whose sensor answers with status 500, between two others. *)
Lemma stage_outcomes_demo :
  get_air_quality demo 0 0
  = Ok [{| AirQualityResult.sensor_id := 0;
           AirQualityResult.placename := "";
           AirQualityResult.timestamp := "";
           AirQualityResult.pm25 := (-1)%Q;
           AirQualityResult.status := "API error: 500" |}] /\
  get_air_quality demo 1 0
  = Ok [{| AirQualityResult.sensor_id := 0;
           AirQualityResult.placename := "";
           AirQualityResult.timestamp := "";
           AirQualityResult.pm25 := (-1)%Q;
           AirQualityResult.status :=
             "Error. No locations found near coordinates." |}] /\
  get_air_quality demo 2 0 = Ok [] /\
  collect demo (utcnow demo - eight_hours) 0 [] [failing_station; inside_station]
  = collect demo (utcnow demo - eight_hours) 1 [] [inside_station] /\
  get_air_quality demo 7 0 = Ok [demo_reading 102 "Inside"].
Proof.
  split; [|split; [|split; [|split]]].
  - apply (stage_outcomes demo 0 0) with (r := {| status_code := 500;
        body := Some (obj [("detail", JStr "error")]) |}); reflexivity.
  - apply (stage_outcomes demo 1 0) with (results := JArr []); [|reflexivity].
    eexists _, _. repeat split; reflexivity.
  - apply (stage_outcomes demo 2 0)
      with (results := JArr [stale_station; undated_station; ozone_station])
           (locations := [stale_station; undated_station; ozone_station]);
      [|reflexivity|reflexivity|vm_compute; reflexivity].
    eexists _, _. repeat split; reflexivity.
  - apply (stage_outcomes demo 0 0) with (sensor_id := JInt 500)
        (r := {| status_code := 500;
                 body := Some (obj [("detail", JStr "error")]) |});
      [simpl; lia | vm_compute; reflexivity | reflexivity | reflexivity].
  - vm_compute. reflexivity.
Defined.

(** C10: a station whose last-updated timestamp is present and is
    refused by [datetime.fromisoformat] makes the whole call answer
    with one sentinel reading, the one of the handler of unexpected
    exceptions, whatever the stations before and after it are. *)
Theorem malformed_timestamp_aborts (w : env) (lat lon : Q)
    (before after : list json) (bad : json) (s : string) :
  discovers w lat lon (JArr (before ++ bad :: after)) ->
  returns (suitable_loop w (utcnow w - eight_hours) [] before) ->
  last_updated_str bad = Ok (JStr s) ->
  s <> "" ->
  fromisoformat w (replace_Z s) = IsoInvalid ->
  get_air_quality w lat lon
  = Ok [{| AirQualityResult.sensor_id := 0;
           AirQualityResult.placename := "";
           AirQualityResult.timestamp := "";
           AirQualityResult.pm25 := (-1)%Q;
           AirQualityResult.status := unexpected_status w ValueError |}].
Proof.
  intros Hd [kept Hbefore] Hstr Hs Hiso.
  apply (handler_unexpected w lat lon ValueError); [discriminate|].
  rewrite (discovery_found _ _ _ _ Hd).
  assert (Htruthy : truthy (JArr (before ++ bad :: after)) = true)
    by (destruct before; reflexivity).
  rewrite Htruthy. simpl. unfold select_readings. simpl.
  rewrite suitable_loop_app, Hbefore. simpl.
  rewrite (is_suitable_dated _ _ _ _ Hstr Hs), Hiso. reflexivity.
Qed.

(** C10 in the scenario: of two stations, the second is dated
    "yesterday"; the call answers with the sentinel of the unexpected
    exception and not with the reading of the first station, which it
    returns when the second station has no timestamp at all. *)
Lemma malformed_timestamp_demo :
  get_air_quality demo 5 0
  = Ok [{| AirQualityResult.sensor_id := 0;
           AirQualityResult.placename := "";
           AirQualityResult.timestamp := "";
           AirQualityResult.pm25 := (-1)%Q;
           AirQualityResult.status :=
             "An unexpected error occurred at line 281: Invalid isoformat string: 'yesterday'" |}] /\
  get_air_quality demo 9 0 = Ok [demo_reading 102 "Inside"].
Proof.
  split.
  - apply (malformed_timestamp_aborts demo 5 0 [inside_station] [] misdated_station
             "yesterday").
    + eexists _, _. repeat split; reflexivity.
    + eexists. vm_compute. reflexivity.
    + reflexivity.
    + discriminate.
    + reflexivity.
  - vm_compute. reflexivity.
Defined.

(** ** Exceptions at the boundary of the public operations *)

Lemma geocode_returns (w : env) (i : nat) (p : string) :
  (forall e, geocode_try w i p = Raise e -> exists code, e = HTTPStatusError code) ->
  returns (_geocode_one_placename w i p).
Proof.
  intros Honly. unfold _geocode_one_placename.
  destruct (geocode_try w i p) as [o|e] eqn:E.
  - exists o. reflexivity.
  - destruct (Honly e eq_refl) as [code ->]. eexists. reflexivity.
Qed.

(** C2 (amended): [get_air_quality] never raises, and an exception
    raised in its [try] block becomes one sentinel reading with a
    status that is not empty.  [placename_to_latlon] turns an upstream
    error status into an outcome with coordinates 0.0 and a message
    naming the code.  [placenames_to_latlons] returns one outcome per
    name when its lookups raise nothing but upstream status errors, and
    the outcome at the position of a name answered with an error status
    is that same outcome, coordinates 0.0 and a message naming the
    code. *)
Theorem handled_exceptions (w : env) :
  (forall lat lon, returns (get_air_quality w lat lon)) /\
  (forall lat lon e,
     get_air_quality_try w lat lon = Raise e ->
     exists st, st <> "" /\
       get_air_quality w lat lon
       = Ok [{| AirQualityResult.sensor_id := 0;
                AirQualityResult.placename := "";
                AirQualityResult.timestamp := "";
                AirQualityResult.pm25 := (-1)%Q;
                AirQualityResult.status := st |}]) /\
  (forall p r,
     geocode_reply w 0 p = Response r ->
     is_success (status_code r) = false ->
     placename_to_latlon w p
     = Ok {| GeocodePlacenameResponse.latitude := 0%Q;
             GeocodePlacenameResponse.longitude := 0%Q;
             GeocodePlacenameResponse.placename := p;
             GeocodePlacenameResponse.message :=
               "upstream error (status code=" +:+ pretty (status_code r) +:+ ")" |}) /\
  (forall placenames,
     (forall i p e, placenames !! i = Some p ->
        geocode_try w i p = Raise e -> exists code, e = HTTPStatusError code) ->
     exists outcomes,
       placenames_to_latlons w placenames = Ok outcomes /\
       length outcomes = length placenames /\
       forall i p r,
         placenames !! i = Some p ->
         geocode_reply w i p = Response r ->
         is_success (status_code r) = false ->
         outcomes !! i
         = Some {| GeocodePlacenameResponse.latitude := 0%Q;
                   GeocodePlacenameResponse.longitude := 0%Q;
                   GeocodePlacenameResponse.placename := p;
                   GeocodePlacenameResponse.message :=
                     "upstream error (status code="
                     +:+ pretty (status_code r) +:+ ")" |}).
Proof.
  split; [|split; [|split]].
  - intros lat lon. apply handler_returns.
  - intros lat lon e. apply handler_sentinel.
  - intros p r Hr Hs. unfold placename_to_latlon.
    apply geocode_status_error, geocode_try_status_error; assumption.
  - intros placenames Honly.
    destruct (batch_of_returning_lookups w placenames)
      as (outcomes & Hb & Hlen & Hnth).
    + intros i p Hp. apply geocode_returns. intros e. apply (Honly i p e Hp).
    + exists outcomes. split; [exact Hb|]. split; [exact Hlen|].
      intros i p r Hp Hr Hs. apply (Hnth i p _ Hp).
      apply geocode_status_error, geocode_try_status_error; assumption.
Qed.

(** C2 (amended) in the scenario: a discovery request left without
    response, a lookup answered with status 503, and a batch holding
    such a lookup at its second position. *)
Lemma handled_exceptions_demo :
  (exists st, st <> "" /\
     get_air_quality demo 10 0
     = Ok [{| AirQualityResult.sensor_id := 0;
              AirQualityResult.placename := "";
              AirQualityResult.timestamp := "";
              AirQualityResult.pm25 := (-1)%Q;
              AirQualityResult.status := st |}]) /\
  placename_to_latlon demo "Atlantis"
  = Ok {| GeocodePlacenameResponse.latitude := 0%Q;
          GeocodePlacenameResponse.longitude := 0%Q;
          GeocodePlacenameResponse.placename := "Atlantis";
          GeocodePlacenameResponse.message := "upstream error (status code=503)" |} /\
  (exists outcomes,
     placenames_to_latlons demo ["Paris"; "Atlantis"; "???invalid"] = Ok outcomes /\
     length outcomes = 3%nat /\
     outcomes !! 1%nat
     = Some {| GeocodePlacenameResponse.latitude := 0%Q;
               GeocodePlacenameResponse.longitude := 0%Q;
               GeocodePlacenameResponse.placename := "Atlantis";
               GeocodePlacenameResponse.message :=
                 "upstream error (status code=503)" |}).
Proof.
  destruct (handled_exceptions demo) as (_ & Hair & Hone & Hbatch).
  split; [|split].
  - apply (Hair 10%Q 0%Q RequestError). reflexivity.
  - apply (Hone "Atlantis"
             {| status_code := 503; body := Some (obj [("detail", JStr "error")]) |});
      reflexivity.
  - destruct (Hbatch ["Paris"; "Atlantis"; "???invalid"])
      as (outcomes & Hb & Hlen & Hnth).
    { intros i p e Hp.
      do 3 (destruct i as [|i];
            [injection Hp as <-; vm_compute;
             intros [= <-] || discriminate; eexists; reflexivity|]).
      discriminate Hp. }
    exists outcomes. split; [exact Hb|]. split; [exact Hlen|].
    apply (Hnth 1%nat "Atlantis"
             {| status_code := 503; body := Some (obj [("detail", JStr "error")]) |});
      reflexivity.
Defined.

(** C2: a lookup that gets no response raises [RequestError] through
    both geocoding operations, and takes the outcomes of the other names
    of its batch with it; a match without a position raises
    [KeyError]. *)
Lemma unanswered_lookup_raises :
  placename_to_latlon demo "Nowhere" = Raise RequestError /\
  placenames_to_latlons demo ["Paris"; "Nowhere"; "Tokyo"] = Raise RequestError /\
  placename_to_latlon demo "Utopia" = Raise (KeyError "position") /\
  placenames_to_latlons demo ["Utopia"] = Raise (KeyError "position").
Proof. repeat split; vm_compute; reflexivity. Qed.

(** * Further properties of the code *)

(** ** Upstream status errors stay inside *)

Lemma no_status_error_Ok {A} (a : A) : no_status_error (Ok a).
Proof. intros code. discriminate. Qed.

Lemma no_status_error_bind {A B} (m : result A) (f : A -> result B) :
  no_status_error m -> (forall a, m = Ok a -> no_status_error (f a)) ->
  no_status_error (m ≫= f).
Proof.
  intros Hm Hf code. destruct m as [a|e]; simpl.
  - apply (Hf a eq_refl).
  - intros [= ->]. apply (Hm code). reflexivity.
Qed.

Lemma no_status_error_fmap {A B} (m : result A) (f : A -> B) :
  no_status_error m -> no_status_error (f <$> m).
Proof. intros Hm code. destruct m as [a|e]; [discriminate|]. intros [= ->]. apply (Hm code). reflexivity. Qed.

Lemma py_get_default_quiet (j : json) (key : string) (dflt : json) :
  no_status_error (py_get_default j key dflt).
Proof. intros code. destruct j; discriminate. Qed.

Lemma py_get_quiet (j : json) (key : string) : no_status_error (py_get j key).
Proof. apply py_get_default_quiet. Qed.

Lemma py_getitem_quiet (j : json) (key : string) : no_status_error (py_getitem j key).
Proof.
  intros code. destruct j as [| | | | | |fields]; try discriminate.
  simpl. destruct (fields !! key); discriminate.
Qed.

Lemma py_iter_quiet (j : json) : no_status_error (py_iter j).
Proof. intros code. destruct j; discriminate. Qed.

Lemma py_replace_Z_quiet (j : json) : no_status_error (py_replace_Z j).
Proof. intros code. destruct j; discriminate. Qed.

Lemma measures_pm25_quiet (s : json) : no_status_error (measures_pm25 s).
Proof.
  unfold measures_pm25.
  apply no_status_error_bind; [apply py_get_default_quiet|]. intros parameter _.
  apply no_status_error_bind; [apply py_get_quiet|]. intros name _.
  apply no_status_error_Ok.
Qed.

Lemma any_pm25_quiet (sensors : list json) : no_status_error (any_pm25 sensors).
Proof.
  induction sensors as [|s rest IH]; [apply no_status_error_Ok|]. simpl.
  apply no_status_error_bind; [apply measures_pm25_quiet|].
  intros [] _; [apply no_status_error_Ok | exact IH].
Qed.

Lemma next_pm25_quiet (sensors : list json) : no_status_error (next_pm25 sensors).
Proof.
  induction sensors as [|s rest IH]; [apply no_status_error_Ok|]. simpl.
  apply no_status_error_bind; [apply measures_pm25_quiet|].
  intros [] _; [apply no_status_error_Ok | exact IH].
Qed.

Lemma has_pm25_quiet (loc : json) : no_status_error (has_pm25 loc).
Proof.
  unfold has_pm25.
  apply no_status_error_bind; [apply py_get_default_quiet|]. intros sensors _.
  apply no_status_error_bind; [apply py_iter_quiet|]. intros items _.
  apply any_pm25_quiet.
Qed.

Lemma is_suitable_quiet (w : env) (c : Z) (loc : json) :
  no_status_error (is_suitable w c loc).
Proof.
  unfold is_suitable.
  apply no_status_error_bind.
  { unfold last_updated_str.
    apply no_status_error_bind; [apply py_get_quiet|]. intros d _. apply py_get_quiet. }
  intros u _. destruct (negb (truthy u)); [apply no_status_error_Ok|].
  apply no_status_error_bind; [apply py_replace_Z_quiet|]. intros iso _.
  destruct (fromisoformat w iso) as [| |t]; try (intros code; discriminate).
  destruct (t <? c); [apply no_status_error_Ok | apply has_pm25_quiet].
Qed.

Lemma suitable_loop_quiet (w : env) (c : Z) (locations : list json) :
  forall kept, no_status_error (suitable_loop w c kept locations).
Proof.
  induction locations as [|loc rest IH]; intros kept; [apply no_status_error_Ok|].
  simpl. apply no_status_error_bind; [apply is_suitable_quiet|].
  intros keep _. apply IH.
Qed.

Lemma fetch_measurements_quiet (w : env) (c : Z) (k : nat) (sensor_id : json) :
  no_status_error (fetch_measurements w c k sensor_id).
Proof.
  intros code. unfold fetch_measurements.
  destruct (_ ≫= _) as [data|e]; [discriminate|].
  destruct e; discriminate.
Qed.

Lemma has_reading_quiet (m : json) : no_status_error (has_reading m).
Proof.
  unfold has_reading.
  apply no_status_error_bind; [apply py_get_default_quiet|]. intros period _.
  apply no_status_error_bind; [apply py_get_default_quiet|]. intros dto _.
  apply no_status_error_bind; [apply py_get_quiet|]. intros utc _.
  destruct (is_none utc); [apply no_status_error_Ok|].
  apply no_status_error_bind; [apply py_get_quiet|]. intros v _.
  apply no_status_error_Ok.
Qed.

Lemma first_valid_quiet (ms : list json) : no_status_error (first_valid ms).
Proof.
  induction ms as [|m rest IH]; [apply no_status_error_Ok|]. simpl.
  apply no_status_error_bind; [apply has_reading_quiet|].
  intros [] _; [apply no_status_error_Ok | exact IH].
Qed.

Lemma make_reading_quiet (w : env) (id name ts value : json) (st : string) :
  no_status_error (AirQualityResult.make w id name ts value st).
Proof.
  intros code. unfold AirQualityResult.make.
  destruct (validate_int w id), (validate_str name), (validate_str ts),
    (validate_float w value); discriminate.
Qed.

Lemma extract_reading_quiet (w : env) (loc sensor_id results : json) :
  no_status_error (extract_reading w loc sensor_id results).
Proof.
  unfold extract_reading.
  apply no_status_error_bind.
  { unfold last_measurement, py_reversed.
    apply no_status_error_bind; [apply no_status_error_fmap, py_iter_quiet|].
    intros ms _. apply first_valid_quiet. }
  intros [m|] _; [|apply no_status_error_Ok].
  destruct (negb (truthy m)); [apply no_status_error_Ok|].
  apply no_status_error_fmap. unfold reading_of.
  repeat (apply no_status_error_bind; [apply py_getitem_quiet|]; intros ? _).
  apply make_reading_quiet.
Qed.

Lemma locate_sensor_quiet (loc : json) : no_status_error (locate_sensor loc).
Proof.
  unfold locate_sensor.
  apply no_status_error_bind; [apply py_getitem_quiet|]. intros sensors _.
  apply no_status_error_bind; [apply py_iter_quiet|]. intros items _.
  apply no_status_error_bind; [apply next_pm25_quiet|].
  intros [s|] _; [|apply no_status_error_Ok].
  destruct (negb (truthy s)); [apply no_status_error_Ok|].
  apply no_status_error_fmap, py_getitem_quiet.
Qed.

Lemma visit_quiet (w : env) (c : Z) (k : nat) (loc : json) :
  no_status_error (visit w c k loc).
Proof.
  unfold visit.
  apply no_status_error_bind; [apply locate_sensor_quiet|].
  intros [sensor_id|] _; [|apply no_status_error_Ok].
  apply no_status_error_bind; [apply fetch_measurements_quiet|].
  intros [data|] _; [|apply no_status_error_Ok].
  apply no_status_error_bind; [apply py_get_quiet|]. intros results _.
  destruct (negb (truthy results)); [apply no_status_error_Ok|].
  apply extract_reading_quiet.
Qed.

Lemma collect_quiet (w : env) (c : Z) (locations : list json) :
  forall k acc, no_status_error (collect w c k acc locations).
Proof.
  induction locations as [|loc rest IH]; intros k acc; [apply no_status_error_Ok|].
  rewrite collect_cons. destruct (3 <=? length acc)%nat; [apply no_status_error_Ok|].
  apply no_status_error_bind; [apply visit_quiet|]. intros reading _. apply IH.
Qed.

Lemma select_readings_quiet (w : env) (results : json) :
  no_status_error (select_readings w results).
Proof.
  unfold select_readings.
  apply no_status_error_bind; [apply py_iter_quiet|]. intros locations _.
  apply no_status_error_bind; [apply suitable_loop_quiet|].
  intros [|loc suitable] _; [apply no_status_error_Ok | apply collect_quiet].
Qed.

Lemma try_status_error_inv (w : env) (lat lon : Q) (code : Z) :
  get_air_quality_try w lat lon = Raise (HTTPStatusError code) ->
  exists r, locations_reply w lat lon = Response r /\
            status_code r = code /\ is_success code = false.
Proof.
  unfold get_air_quality_try.
  destruct (locations_reply w lat lon) as [|r] eqn:Hr; simpl; [discriminate|].
  unfold raise_for_status.
  destruct (is_success (status_code r)) eqn:Hs; simpl.
  - destruct (response_json r) as [data|e] eqn:Hj; simpl.
    + destruct (py_get data "results") as [results|e] eqn:Hres; simpl.
      * destruct (negb (truthy results)); [discriminate|].
        intros H. destruct (select_readings_quiet w results code H).
      * intros H. destruct (py_get_quiet data "results" code). congruence.
    + unfold response_json in Hj. destruct (body r); [discriminate|].
      injection Hj as <-. discriminate.
  - intros [= <-]. exists r. repeat split. exact Hs.
Qed.

(** ** The filter as a whole *)

Lemma suitable_loop_filter (w : env) (c : Z) (locations : list json) :
  forall kept out,
  suitable_loop w c kept locations = Ok out ->
  out = (kept ++ List.filter (keeps w c) locations)%list /\
  Forall (fun loc => returns (is_suitable w c loc)) locations.
Proof.
  induction locations as [|loc rest IH]; intros kept out.
  - intros [= <-]. rewrite app_nil_r. split; [reflexivity | constructor].
  - rewrite suitable_loop_cons. unfold keeps. simpl List.filter.
    destruct (is_suitable w c loc) as [keep|e] eqn:E; simpl; [|discriminate].
    intros H. destruct (IH _ _ H) as [-> Hall].
    split; [|constructor; [exists keep; exact E | exact Hall]].
    destruct keep; [rewrite <- app_assoc|]; reflexivity.
Qed.

Lemma suitable_loop_returns (w : env) (c : Z) (locations : list json) :
  Forall (fun loc => returns (is_suitable w c loc)) locations ->
  forall kept, returns (suitable_loop w c kept locations).
Proof.
  induction 1 as [|loc rest [keep Hloc] _ IH]; intros kept.
  - exists kept. reflexivity.
  - rewrite suitable_loop_cons, Hloc. apply IH.
Qed.

Lemma filter_sublist_of {A} (f : A -> bool) (l : list A) :
  sublist (List.filter f l) l.
Proof.
  induction l as [|x l IH]; simpl; [constructor|].
  destruct (f x); [apply sublist_skip | apply sublist_cons]; exact IH.
Qed.

(** X1: the loop of lines 273-292 is a filter.  It returns exactly when
    the test of every station returns, and what it returns are the
    stations the test accepts, all of them, each as often as it was
    found and in the order in which they were found. *)
Theorem suitable_locations_filter (w : env) (c : Z) (locations : list json) :
  (returns (suitable_loop w c [] locations)
   <-> Forall (fun loc => returns (is_suitable w c loc)) locations) /\
  (forall suitable,
     suitable_loop w c [] locations = Ok suitable ->
     suitable = List.filter (keeps w c) locations /\
     sublist suitable locations /\
     (forall loc, loc ∈ suitable <-> loc ∈ locations /\ is_suitable w c loc = Ok true)).
Proof.
  split.
  - split.
    + intros [out H]. apply (suitable_loop_filter _ _ _ _ _ H).
    + intros H. apply suitable_loop_returns, H.
  - intros suitable H.
    destruct (suitable_loop_filter _ _ _ _ _ H) as [-> _]. simpl.
    split; [reflexivity|]. split; [apply filter_sublist_of|].
    intros loc. rewrite !list_elem_of_In, filter_In. unfold keeps.
    split; intros [Hin Hk]; (split; [exact Hin|]).
    + destruct (is_suitable w c loc) as [[]|]; try discriminate. reflexivity.
    + rewrite Hk. reflexivity.
Qed.

(** X1 in the scenario: of the five stations of the fourth scenario of
    [demo], the second and the fourth are kept. *)
Lemma suitable_locations_filter_demo :
  List.filter (keeps demo (utcnow demo - eight_hours))
    [stale_station; inside_station; undated_station; fresh_station 1; ozone_station]
  = [inside_station; fresh_station 1] /\
  sublist [inside_station; fresh_station 1]
    [stale_station; inside_station; undated_station; fresh_station 1; ozone_station].
Proof.
  destruct (suitable_locations_filter demo (utcnow demo - eight_hours)
              [stale_station; inside_station; undated_station; fresh_station 1;
               ozone_station]) as [_ H].
  destruct (H [inside_station; fresh_station 1]) as (Hf & Hs & _);
    [vm_compute; reflexivity|].
  split; [symmetry; exact Hf | exact Hs].
Defined.

(** ** From the filter to the visit *)

Lemma measures_pm25_truthy (s : json) :
  measures_pm25 s = Ok true -> truthy s = true.
Proof.
  unfold measures_pm25. destruct s as [| | | | | |fields]; try discriminate.
  simpl. destruct (fields !! "parameter") as [parameter|] eqn:Hp.
  - intros _. destruct (Nat.eqb_spec (size fields) 0) as [Hsize|]; [|reflexivity].
    apply map_size_empty_iff in Hsize. subst fields.
    rewrite lookup_empty in Hp. discriminate Hp.
  - simpl. rewrite lookup_empty. discriminate.
Qed.

Lemma any_pm25_true (items : list json) :
  any_pm25 items = Ok true ->
  exists before s after,
    items = (before ++ s :: after)%list /\
    Forall (fun x => measures_pm25 x = Ok false) before /\
    measures_pm25 s = Ok true /\
    next_pm25 items = Ok (Some s).
Proof.
  induction items as [|x rest IH]; [discriminate|]. simpl.
  destruct (measures_pm25 x) as [[]|e] eqn:Hx; simpl; [| |discriminate].
  - intros _. exists [], x, rest. repeat split; [constructor | exact Hx].
  - intros H. destruct (IH H) as (before & s & after & -> & Hb & Hs & Hn).
    exists (x :: before), s, after. repeat split; try assumption.
    constructor; assumption.
Qed.

(** X2: a station the filter accepts for its pm25 sensor has one when it
    is visited.  The sensor the visit takes is the first of the
    station's sensors that measures pm25, it is never the empty value
    that line 318 guards against, and the only way for the visit to go
    wrong before the request is a sensor without an id. *)
Theorem suitable_station_has_sensor (loc : json) :
  has_pm25 loc = Ok true ->
  exists sensors before s after,
    py_getitem loc "sensors" = Ok sensors /\
    py_iter sensors = Ok (before ++ s :: after)%list /\
    Forall (fun x => measures_pm25 x = Ok false) before /\
    measures_pm25 s = Ok true /\
    truthy s = true /\
    locate_sensor loc = Some <$> py_getitem s "id" /\
    locate_sensor loc <> Ok None.
Proof.
  unfold has_pm25. intros H.
  destruct loc as [| | | | | |fields]; try discriminate H. simpl in H.
  destruct (fields !! "sensors") as [sensors|] eqn:Hsensors; simpl in H;
    [|discriminate H].
  destruct (py_iter sensors) as [items|e] eqn:Hiter; simpl in H; [|discriminate H].
  destruct (any_pm25_true items H) as (before & s & after & -> & Hb & Hs & Hn).
  pose proof (measures_pm25_truthy s Hs) as Ht.
  assert (Hloc : locate_sensor (JObj fields) = Some <$> py_getitem s "id").
  { unfold locate_sensor. simpl. rewrite Hsensors. simpl. rewrite Hiter. simpl.
    rewrite Hn. simpl. rewrite Ht. reflexivity. }
  exists sensors, before, s, after. repeat split; try assumption.
  - simpl. rewrite Hsensors. reflexivity.
  - rewrite Hloc. destruct (py_getitem s "id"); discriminate.
Qed.

(** X2 in the scenario: the station "Inside" has an ozone sensor before
    its pm25 sensor, which is the one the visit takes. *)
Lemma suitable_station_has_sensor_demo :
  exists sensors before s after,
    py_getitem inside_station "sensors" = Ok sensors /\
    py_iter sensors = Ok (before ++ s :: after)%list /\
    Forall (fun x => measures_pm25 x = Ok false) before /\
    measures_pm25 s = Ok true /\
    truthy s = true /\
    locate_sensor inside_station = Some <$> py_getitem s "id" /\
    locate_sensor inside_station <> Ok None.
Proof. apply (suitable_station_has_sensor inside_station). reflexivity. Defined.

(** ** The two spellings of UTC *)

Lemma replace_Z_app (s t : string) :
  replace_Z (s +:+ t) = replace_Z s +:+ replace_Z t.
Proof.
  induction s as [|c s IH]; [reflexivity|]. simpl.
  rewrite IH. destruct (Ascii.eqb c "Z"); reflexivity.
Qed.

Lemma replace_Z_no_Z (s : string) : no_Z s = true -> replace_Z s = s.
Proof.
  induction s as [|c s IH]; [reflexivity|]. simpl.
  destruct (Ascii.eqb c "Z"); simpl; [discriminate|].
  intros H. rewrite (IH H). reflexivity.
Qed.

Lemma no_Z_replace_Z (s : string) : no_Z (replace_Z s) = true.
Proof.
  induction s as [|c s IH]; [reflexivity|]. simpl.
  destruct (Ascii.eqb c "Z") eqn:E; simpl; [exact IH|].
  rewrite E. exact IH.
Qed.

Lemma append_nonempty (s t : string) : t <> "" -> s +:+ t <> "".
Proof. destruct s; simpl; [trivial | discriminate]. Qed.

(** X9: line 282 makes the suffix Z and the offset +00:00 the same thing
    to the filter.  The string handed to [datetime.fromisoformat] never
    holds a Z; a timestamp without Z is handed on as it is; and two
    stations that differ only in the spelling of the offset, Z for the
    one and +00:00 for the other, get the same verdict. *)
Theorem utc_spellings_agree (w : env) (c : Z) (s : string) :
  no_Z (replace_Z s) = true /\
  (no_Z s = true ->
   replace_Z s = s /\
   replace_Z (s +:+ "Z") = s +:+ "+00:00" /\
   forall loc loc',
     last_updated_str loc = Ok (JStr (s +:+ "Z")) ->
     last_updated_str loc' = Ok (JStr (s +:+ "+00:00")) ->
     has_pm25 loc = has_pm25 loc' ->
     is_suitable w c loc = is_suitable w c loc').
Proof.
  split; [apply no_Z_replace_Z|]. intros Hs.
  assert (HZ : replace_Z (s +:+ "Z") = s +:+ "+00:00").
  { rewrite replace_Z_app, (replace_Z_no_Z s Hs). reflexivity. }
  split; [apply replace_Z_no_Z, Hs|]. split; [exact HZ|].
  intros loc loc' Hloc Hloc' Hpm.
  rewrite (is_suitable_dated w c loc _ Hloc) by (apply append_nonempty; discriminate).
  rewrite (is_suitable_dated w c loc' _ Hloc') by (apply append_nonempty; discriminate).
  rewrite HZ, replace_Z_app, (replace_Z_no_Z s Hs), Hpm. reflexivity.
Qed.

(** X9 in the scenario: the stations "Inside" and "Offset" carry the
    same instant, spelled with Z and with +00:00. *)
Lemma utc_spellings_agree_demo :
  replace_Z "2025-01-01T04:00:01Z" = "2025-01-01T04:00:01+00:00" /\
  is_suitable demo (utcnow demo - eight_hours) inside_station
  = is_suitable demo (utcnow demo - eight_hours) offset_station.
Proof.
  destruct (utc_spellings_agree demo (utcnow demo - eight_hours)
              "2025-01-01T04:00:01") as [_ H].
  destruct H as (_ & HZ & Hsame); [reflexivity|].
  split; [exact HZ|]. apply Hsame; reflexivity.
Defined.

(** ** What a call can answer with *)

Lemma make_reading_status (w : env) (id name ts value : json) (st : string)
    (r : AirQualityResult.t) :
  AirQualityResult.make w id name ts value st = Ok r ->
  AirQualityResult.status r = st.
Proof.
  unfold AirQualityResult.make.
  destruct (validate_int w id), (validate_str name), (validate_str ts),
    (validate_float w value); intros [= <-] || discriminate.
  reflexivity.
Qed.

Lemma extract_reading_status (w : env) (loc sensor_id results : json)
    (r : AirQualityResult.t) :
  extract_reading w loc sensor_id results = Ok (Some r) ->
  AirQualityResult.status r = "Success.".
Proof.
  unfold extract_reading.
  destruct (last_measurement results) as [[m|]|e]; simpl; try discriminate.
  destruct (negb (truthy m)); [discriminate|].
  unfold reading_of. repeat bind_case.
  destruct (AirQualityResult.make _ _ _ _ _ _) as [r'|e] eqn:Hmake; simpl;
    [|discriminate].
  intros [= <-]. apply (make_reading_status _ _ _ _ _ _ _ Hmake).
Qed.

Lemma visit_status (w : env) (c : Z) (k : nat) (loc : json) (r : AirQualityResult.t) :
  visit w c k loc = Ok (Some r) -> AirQualityResult.status r = "Success.".
Proof.
  unfold visit.
  destruct (locate_sensor loc) as [[sensor_id|]|e]; simpl; try discriminate.
  destruct (fetch_measurements w c k sensor_id) as [[data|]|e]; simpl;
    try discriminate.
  destruct (py_get data "results") as [results|e]; simpl; [|discriminate].
  destruct (negb (truthy results)); [discriminate|].
  apply extract_reading_status.
Qed.

(** What the loop of lines 303-368 returns: the readings it started
    with, then readings of stations of its list, each from the visit of
    a station of its own, in the order of the visits. *)
Lemma collect_origin (w : env) (c : Z) (locations : list json) :
  forall k acc readings,
  collect w c k acc locations = Ok readings ->
  exists new,
    readings = (acc ++ new)%list /\
    (length new <= length locations)%nat /\
    Forall (fun r => exists i loc,
              locations !! i = Some loc /\
              visit w c (k + i) loc = Ok (Some r)) new.
Proof.
  induction locations as [|loc rest IH]; intros k acc readings.
  - intros [= <-]. exists []. rewrite app_nil_r.
    split; [reflexivity|]. split; [simpl; lia | constructor].
  - rewrite collect_cons. destruct (3 <=? length acc)%nat.
    + intros [= <-]. exists []. rewrite app_nil_r.
      split; [reflexivity|]. split; [simpl; lia | constructor].
    + destruct (visit w c k loc) as [reading|e] eqn:Hv; simpl; [|discriminate].
      intros H. destruct (IH _ _ _ H) as (new & -> & Hlen & Hfrom).
      assert (Hshift : Forall (fun r => exists i loc0,
                  (loc :: rest) !! i = Some loc0 /\
                  visit w c (k + i) loc0 = Ok (Some r)) new).
      { eapply Forall_impl; [exact Hfrom|]. intros r (i & loc0 & Hi & Hr).
        exists (S i), loc0. split; [exact Hi|].
        replace (k + S i)%nat with (S k + i)%nat by lia. exact Hr. }
      destruct reading as [r|]; simpl.
      * exists (r :: new). rewrite <- app_assoc.
        split; [reflexivity|]. split; [simpl; lia|].
        constructor; [|exact Hshift].
        exists 0%nat, loc. rewrite Nat.add_0_r. split; [reflexivity | exact Hv].
      * exists new. rewrite app_nil_r.
        split; [reflexivity|]. split; [simpl; lia | exact Hshift].
Qed.

Lemma select_readings_origin (w : env) (results : json)
    (readings : list AirQualityResult.t) :
  select_readings w results = Ok readings ->
  exists locations suitable,
    py_iter results = Ok locations /\
    suitable_loop w (utcnow w - eight_hours) [] locations = Ok suitable /\
    (length readings <= length suitable)%nat /\
    Forall (fun r => exists k loc,
              loc ∈ suitable /\
              visit w (utcnow w - eight_hours) k loc = Ok (Some r)) readings.
Proof.
  unfold select_readings.
  destruct (py_iter results) as [locations|e]; simpl; [|discriminate].
  destruct (suitable_loop _ _ _ _) as [suitable|e] eqn:Hloop; simpl; [|discriminate].
  intros H. exists locations, suitable. split; [reflexivity|]. split; [exact Hloop|].
  clear Hloop. destruct suitable as [|loc suitable].
  { injection H as <-. split; [simpl; lia | constructor]. }
  apply collect_origin in H as (new & -> & Hlen & Hfrom). simpl.
  rewrite (Permutation_length (shuffle_Permutation (random_draw w) (loc :: suitable)))
    in Hlen.
  split; [exact Hlen|].
  eapply Forall_impl; [exact Hfrom|]. intros r (i & loc0 & Hi & Hr).
  exists (0 + i)%nat, loc0. split; [|exact Hr].
  rewrite <- (shuffle_Permutation (random_draw w) (loc :: suitable)).
  apply list_elem_of_lookup. exists i. exact Hi.
Qed.

Lemma try_Ok_shape (w : env) (lat lon : Q) (readings : list AirQualityResult.t) :
  get_air_quality_try w lat lon = Ok readings ->
  readings = [AirQualityResult.sentinel "Error. No locations found near coordinates."]
  \/ Forall (fun r => AirQualityResult.status r = "Success.") readings.
Proof.
  unfold get_air_quality_try.
  destruct (client_get _) as [r|e]; simpl; [|discriminate].
  destruct (raise_for_status r) as [[]|e]; simpl; [|discriminate].
  destruct (response_json r) as [data|e]; simpl; [|discriminate].
  destruct (py_get data "results") as [results|e]; simpl; [|discriminate].
  destruct (negb (truthy results)).
  - intros [= <-]. left. reflexivity.
  - intros H. right.
    destruct (select_readings_origin _ _ _ H)
      as (locations & suitable & _ & _ & _ & Hfrom).
    eapply Forall_impl; [exact Hfrom|]. intros x (k & loc & _ & Hv).
    apply (visit_status _ _ _ _ _ Hv).
Qed.

(** X3: what [get_air_quality] answers with has one of two shapes.
    Either it is a list of at most 3 readings whose status is
    "Success.", every one of them; or it is exactly one reading with
    sensor_id 0, empty placename and timestamp, pm25 -1, and a status
    that is not "Success.".  Readings of stations and a reading that
    reports a failure never come together. *)
Theorem answer_shape (w : env) (lat lon : Q) :
  exists readings,
    get_air_quality w lat lon = Ok readings /\
    (((length readings <= 3)%nat /\
      Forall (fun r => AirQualityResult.status r = "Success.") readings)
     \/ exists st,
          st <> "Success." /\
          readings = [{| AirQualityResult.sensor_id := 0;
                         AirQualityResult.placename := "";
                         AirQualityResult.timestamp := "";
                         AirQualityResult.pm25 := (-1)%Q;
                         AirQualityResult.status := st |}]).
Proof.
  unfold get_air_quality.
  destruct (get_air_quality_try w lat lon) as [readings|e] eqn:E.
  - exists readings. split; [reflexivity|].
    destruct (try_Ok_shape _ _ _ _ E) as [->|Hall].
    + right. eexists. split; [|reflexivity]. discriminate.
    + left. split; [apply (try_length _ _ _ _ E) | exact Hall].
  - destruct e; eexists; (split; [reflexivity|]); right; eexists;
      (split; [|reflexivity]); discriminate.
Qed.

(** X4: a status "API error: ..." in the answer always reports the
    discovery request.  When a reading of the answer has such a status,
    the request of line 242 was answered with a status code that is no
    success, the text after the prefix is that code, and the reading is
    the whole answer; an error status of a sensor's request never shows
    up this way. *)
Theorem api_error_is_discovery (w : env) (lat lon : Q)
    (readings : list AirQualityResult.t) (r : AirQualityResult.t) (text : string) :
  get_air_quality w lat lon = Ok readings ->
  r ∈ readings ->
  AirQualityResult.status r = "API error: " +:+ text ->
  exists reply,
    locations_reply w lat lon = Response reply /\
    is_success (status_code reply) = false /\
    text = pretty (status_code reply) /\
    readings = [AirQualityResult.sentinel ("API error: " +:+ text)].
Proof.
  unfold get_air_quality. intros Hcall Hin Hstatus.
  destruct (get_air_quality_try w lat lon) as [readings'|e] eqn:E.
  - injection Hcall as ->.
    destruct (try_Ok_shape _ _ _ _ E) as [->|Hall].
    + apply list_elem_of_singleton in Hin. subst r. discriminate Hstatus.
    + rewrite Forall_forall in Hall. rewrite (Hall r Hin) in Hstatus.
      discriminate Hstatus.
  - destruct e as [code| | | | | | | |]; injection Hcall as <-;
      apply list_elem_of_singleton in Hin; subst r;
      try discriminate Hstatus.
    simpl in Hstatus. injection Hstatus as Htext.
    change (pretty code = text) in Htext. subst text.
    destruct (try_status_error_inv _ _ _ _ E) as (reply & Hr & Hcode & Hs).
    subst code. exists reply. repeat split; assumption.
Qed.

(** X4 in the scenario: discovery answered with status 429. *)
Lemma api_error_is_discovery_demo :
  exists reply,
    locations_reply outage 5 0 = Response reply /\
    is_success (status_code reply) = false /\
    "429" = pretty (status_code reply) /\
    [AirQualityResult.sentinel "API error: 429"]
    = [AirQualityResult.sentinel ("API error: " +:+ "429")].
Proof.
  apply (api_error_is_discovery outage 5 0
           [AirQualityResult.sentinel "API error: 429"]
           (AirQualityResult.sentinel "API error: 429") "429").
  - vm_compute. reflexivity.
  - apply list_elem_of_singleton. reflexivity.
  - reflexivity.
Defined.

(** X11: every reading of a call whose [try] block completes is the
    reading of a station that passed the filter: the visit of that
    station yields it, the station is one of those the discovery
    request found, and there are no more readings than stations that
    passed. *)
Theorem readings_come_from_suitable_stations (w : env) (lat lon : Q)
    (results : json) (readings : list AirQualityResult.t) :
  discovers w lat lon results ->
  truthy results = true ->
  get_air_quality_try w lat lon = Ok readings ->
  exists locations suitable,
    py_iter results = Ok locations /\
    suitable_loop w (utcnow w - eight_hours) [] locations = Ok suitable /\
    (length readings <= length suitable <= length locations)%nat /\
    Forall (fun r => exists k loc,
              loc ∈ locations /\
              is_suitable w (utcnow w - eight_hours) loc = Ok true /\
              visit w (utcnow w - eight_hours) k loc = Ok (Some r)) readings.
Proof.
  intros Hd Htruthy Htry.
  rewrite (discovery_found _ _ _ _ Hd), Htruthy in Htry. simpl in Htry.
  destruct (select_readings_origin _ _ _ Htry)
    as (locations & suitable & Hiter & Hloop & Hlen & Hfrom).
  destruct (suitable_loop_filter _ _ _ _ _ Hloop) as [Hfilter _].
  simpl in Hfilter.
  assert (Hmem : forall loc, loc ∈ suitable ->
            loc ∈ locations /\ is_suitable w (utcnow w - eight_hours) loc = Ok true).
  { intros loc. rewrite Hfilter, !list_elem_of_In, filter_In. unfold keeps.
    intros [Hin Hk]. split; [exact Hin|].
    destruct (is_suitable _ _ loc) as [[]|]; try discriminate. reflexivity. }
  exists locations, suitable. split; [exact Hiter|]. split; [exact Hloop|]. split.
  - split; [exact Hlen|]. rewrite Hfilter.
    apply sublist_length, filter_sublist_of.
  - eapply Forall_impl; [exact Hfrom|]. intros r (k & loc & Hin & Hv).
    exists k, loc. destruct (Hmem loc Hin) as [H1 H2]. repeat split; assumption.
Qed.

(** X11 in the scenario: five stations found, two suitable, two
    readings. *)
Lemma readings_come_from_suitable_stations_demo :
  exists locations suitable,
    py_iter (JArr [stale_station; inside_station; undated_station;
                   fresh_station 1; ozone_station]) = Ok locations /\
    suitable_loop demo (utcnow demo - eight_hours) [] locations = Ok suitable /\
    (length [demo_reading 201 "Fresh"; demo_reading 102 "Inside"]
     <= length suitable <= length locations)%nat /\
    Forall (fun r => exists k loc,
              loc ∈ locations /\
              is_suitable demo (utcnow demo - eight_hours) loc = Ok true /\
              visit demo (utcnow demo - eight_hours) k loc = Ok (Some r))
      [demo_reading 201 "Fresh"; demo_reading 102 "Inside"].
Proof.
  apply (readings_come_from_suitable_stations demo 4 0).
  - eexists _, _. repeat split; reflexivity.
  - reflexivity.
  - vm_compute. reflexivity.
Defined.

(** ** Exceptions that end a call *)

Lemma collect_found_prefix (w : env) (c : Z) (before rest : list json) :
  forall k acc found,
  imap (fun i => visit w c (k + i)) before = Ok <$> found ->
  (length acc + length (omap id found) < 3)%nat ->
  collect w c k acc (before ++ rest)
  = collect w c (k + length before) (acc ++ omap id found) rest.
Proof.
  induction before as [|loc before IH]; intros k acc found Hfound Hroom.
  - destruct found; [|discriminate]. simpl.
    rewrite Nat.add_0_r, app_nil_r. reflexivity.
  - destruct found as [|reading found]; [discriminate|].
    rewrite imap_cons in Hfound. csimpl in Hfound.
    injection Hfound as Hv Hrest. rewrite Nat.add_0_r in Hv.
    assert (Hnow : (length acc < 3)%nat) by lia.
    change ((loc :: before) ++ rest)%list with (loc :: (before ++ rest))%list.
    rewrite (collect_visit _ _ _ _ _ _ _ Hnow Hv).
    rewrite (IH (S k) _ found).
    + replace (k + length (loc :: before))%nat with (S k + length before)%nat
        by (simpl; lia).
      destruct reading; simpl; [rewrite <- app_assoc | rewrite app_nil_r];
        reflexivity.
    + rewrite <- Hrest. apply imap_ext. intros i x _. simpl. f_equal. lia.
    + destruct reading as [r|].
      * change (omap id (Some r :: found)) with (r :: omap id found) in Hroom.
        rewrite length_app. simpl length in *. lia.
      * change (omap id (None :: found)) with (omap id found) in Hroom.
        rewrite app_nil_r. exact Hroom.
Qed.

Lemma visit_no_response (w : env) (c : Z) (k : nat) (loc sensor_id : json) :
  locate_sensor loc = Ok (Some sensor_id) ->
  measurements_reply w k sensor_id c = NoResponse ->
  visit w c k loc = Raise RequestError.
Proof.
  intros Hloc Hr. unfold visit. rewrite Hloc. simpl.
  unfold fetch_measurements. rewrite Hr. reflexivity.
Qed.

Lemma visit_not_json (w : env) (c : Z) (k : nat) (loc sensor_id : json)
    (r : response) :
  locate_sensor loc = Ok (Some sensor_id) ->
  measurements_reply w k sensor_id c = Response r ->
  is_success (status_code r) = true ->
  body r = None ->
  visit w c k loc = Raise JSONDecodeError.
Proof.
  intros Hloc Hr Hs Hb. unfold visit. rewrite Hloc. simpl.
  unfold fetch_measurements. rewrite Hr. simpl.
  rewrite (raise_for_status_success _ Hs). simpl.
  unfold response_json. rewrite Hb. reflexivity.
Qed.

(** X5: an exception in the visit of one station ends the call and
    loses the readings assembled so far.  When the visit of a station
    raises while fewer than 3 readings are assembled, the answer is the
    one sentinel reading of the handler of unexpected exceptions,
    whatever the stations visited before have yielded.  A request for
    measurements that gets no response, or a response that is not JSON,
    is such an exception: unlike an error status, it is not passed
    over. *)
Theorem visit_failure_discards_readings (w : env) :
  (forall lat lon results locations suitable before loc rest found e,
     discovers w lat lon results ->
     truthy results = true ->
     py_iter results = Ok locations ->
     suitable_loop w (utcnow w - eight_hours) [] locations = Ok suitable ->
     shuffle (random_draw w) suitable = (before ++ loc :: rest)%list ->
     imap (visit w (utcnow w - eight_hours)) before = Ok <$> found ->
     (length (omap id found) < 3)%nat ->
     visit w (utcnow w - eight_hours) (length before) loc = Raise e ->
     get_air_quality w lat lon
     = Ok [{| AirQualityResult.sensor_id := 0;
              AirQualityResult.placename := "";
              AirQualityResult.timestamp := "";
              AirQualityResult.pm25 := (-1)%Q;
              AirQualityResult.status := unexpected_status w e |}]) /\
  (forall c k loc sensor_id,
     locate_sensor loc = Ok (Some sensor_id) ->
     measurements_reply w k sensor_id c = NoResponse ->
     visit w c k loc = Raise RequestError) /\
  (forall c k loc sensor_id r,
     locate_sensor loc = Ok (Some sensor_id) ->
     measurements_reply w k sensor_id c = Response r ->
     is_success (status_code r) = true ->
     body r = None ->
     visit w c k loc = Raise JSONDecodeError).
Proof.
  split; [|split; [apply visit_no_response | apply visit_not_json]].
  intros lat lon results locations suitable before loc rest found e
    Hd Htruthy Hiter Hloop Hshuffle Hfound Hroom Hraise.
  apply (handler_unexpected w lat lon e).
  { intros code ->. apply (visit_quiet _ _ _ _ code Hraise). }
  rewrite (discovery_found _ _ _ _ Hd), Htruthy. simpl.
  assert (Hne : suitable <> []).
  { intros ->. destruct before; discriminate Hshuffle. }
  rewrite (select_readings_collect _ _ _ _ Hiter Hloop Hne), Hshuffle.
  rewrite (collect_found_prefix w _ before (loc :: rest) 0%nat [] found Hfound)
    by (simpl; lia).
  apply collect_raise; [simpl; lia | exact Hraise].
Qed.

(** X5 in the scenarios of [outage]: the third station visited answers
    with something that is not JSON, and the two readings assembled are
    lost; a sensor that does not answer makes the visit raise. *)
Lemma visit_failure_discards_readings_demo :
  get_air_quality outage 2 0
  = Ok [{| AirQualityResult.sensor_id := 0;
           AirQualityResult.placename := "";
           AirQualityResult.timestamp := "";
           AirQualityResult.pm25 := (-1)%Q;
           AirQualityResult.status := unexpected_status outage JSONDecodeError |}] /\
  visit outage (utcnow outage - eight_hours) 0 inside_station = Raise RequestError /\
  visit outage (utcnow outage - eight_hours) 2 (fresh_station 3)
  = Raise JSONDecodeError.
Proof.
  destruct (visit_failure_discards_readings outage) as (Hcall & Hnone & Hjson).
  split; [|split].
  - apply (Hcall 2%Q 0%Q
             (JArr [fresh_station 3; fresh_station 1; fresh_station 2])
             [fresh_station 3; fresh_station 1; fresh_station 2]
             [fresh_station 3; fresh_station 1; fresh_station 2]
             [fresh_station 1; fresh_station 2] (fresh_station 3) []
             [Some (demo_reading 201 "Fresh"); Some (demo_reading 202 "Fresh")]);
      [ eexists _, _; repeat split; reflexivity
      | reflexivity | reflexivity | vm_compute; reflexivity | vm_compute; reflexivity
      | vm_compute; reflexivity | simpl; lia | vm_compute; reflexivity ].
  - apply (Hnone _ _ _ (JInt 102)); reflexivity.
  - apply (Hjson _ _ _ (JInt 203) {| status_code := 200; body := None |});
      reflexivity.
Defined.

Lemma is_suitable_naive (w : env) (c : Z) (loc : json) (s : string) :
  last_updated_str loc = Ok (JStr s) -> s <> "" ->
  fromisoformat w (replace_Z s) = IsoNaive ->
  is_suitable w c loc = Raise TypeError.
Proof.
  intros Hstr Hs Hiso. rewrite (is_suitable_dated _ _ _ _ Hstr Hs), Hiso.
  reflexivity.
Qed.

Lemma is_suitable_not_a_string (w : env) (c : Z) (loc u : json) :
  last_updated_str loc = Ok u -> truthy u = true ->
  (forall s, u <> JStr s) ->
  is_suitable w c loc = Raise (AttributeError "replace").
Proof.
  intros Hstr Ht Hu. unfold is_suitable. rewrite Hstr. simpl. rewrite Ht. simpl.
  destruct u; try reflexivity. destruct (Hu s). reflexivity.
Qed.

(** X8: an exception in the test of one station ends the call.  When
    the test of a station raises, the stations before it having passed
    or failed the test without raising, the answer is the one sentinel
    reading of the handler of unexpected exceptions, whatever the other
    stations are.  A timestamp without offset does it (line 284 compares
    a naive datetime with an aware one), and so does a timestamp that is
    not a string (line 282 calls [replace] on it). *)
Theorem filter_failure_aborts (w : env) :
  (forall lat lon before bad after e,
     discovers w lat lon (JArr (before ++ bad :: after)) ->
     returns (suitable_loop w (utcnow w - eight_hours) [] before) ->
     is_suitable w (utcnow w - eight_hours) bad = Raise e ->
     get_air_quality w lat lon
     = Ok [{| AirQualityResult.sensor_id := 0;
              AirQualityResult.placename := "";
              AirQualityResult.timestamp := "";
              AirQualityResult.pm25 := (-1)%Q;
              AirQualityResult.status := unexpected_status w e |}]) /\
  (forall c loc s,
     last_updated_str loc = Ok (JStr s) -> s <> "" ->
     fromisoformat w (replace_Z s) = IsoNaive ->
     is_suitable w c loc = Raise TypeError) /\
  (forall c loc u,
     last_updated_str loc = Ok u -> truthy u = true ->
     (forall s, u <> JStr s) ->
     is_suitable w c loc = Raise (AttributeError "replace")).
Proof.
  split; [|split; [apply is_suitable_naive | apply is_suitable_not_a_string]].
  intros lat lon before bad after e Hd [kept Hbefore] Hraise.
  apply (handler_unexpected w lat lon e).
  { intros code ->. apply (is_suitable_quiet _ _ _ code Hraise). }
  rewrite (discovery_found _ _ _ _ Hd).
  assert (Htruthy : truthy (JArr (before ++ bad :: after)) = true)
    by (destruct before; reflexivity).
  rewrite Htruthy. simpl. unfold select_readings. simpl.
  rewrite suitable_loop_app, Hbefore. simpl. rewrite Hraise. reflexivity.
Qed.

(** X8 in the scenarios of [outage]: a station dated without offset,
    and a station dated with a number, each after a station in order. *)
Lemma filter_failure_aborts_demo :
  get_air_quality outage 3 0
  = Ok [{| AirQualityResult.sensor_id := 0;
           AirQualityResult.placename := "";
           AirQualityResult.timestamp := "";
           AirQualityResult.pm25 := (-1)%Q;
           AirQualityResult.status := unexpected_status outage TypeError |}] /\
  get_air_quality outage 4 0
  = Ok [{| AirQualityResult.sensor_id := 0;
           AirQualityResult.placename := "";
           AirQualityResult.timestamp := "";
           AirQualityResult.pm25 := (-1)%Q;
           AirQualityResult.status :=
             unexpected_status outage (AttributeError "replace") |}].
Proof.
  destruct (filter_failure_aborts outage) as (Hcall & Hnaive & Hnumber).
  split.
  - apply (Hcall 3%Q 0%Q [fresh_station 1] naive_station []).
    + eexists _, _. repeat split; reflexivity.
    + eexists. vm_compute. reflexivity.
    + apply (Hnaive _ _ "2025-01-01T11:00:00");
        [reflexivity | discriminate | reflexivity].
  - apply (Hcall 4%Q 0%Q [fresh_station 1] numbered_station []).
    + eexists _, _. repeat split; reflexivity.
    + eexists. vm_compute. reflexivity.
    + apply (Hnumber _ _ (JInt 1735729200));
        [reflexivity | reflexivity | discriminate].
Defined.

(** ** What a lookup can answer with *)

Lemma py_getitem0_quiet (j : json) : no_status_error (py_getitem0 j).
Proof.
  intros code. destruct j as [| | | |s|items|]; try discriminate; simpl.
  - destruct (chars s); discriminate.
  - destruct items; discriminate.
Qed.

Lemma make_outcome_quiet (w : env) (lat lon : json) (msg name : string) :
  no_status_error (GeocodePlacenameResponse.make w lat lon msg name).
Proof.
  intros code. unfold GeocodePlacenameResponse.make.
  destruct (validate_float w lat), (validate_float w lon); discriminate.
Qed.

Lemma geocode_try_status_error_inv (w : env) (i : nat) (p : string) (code : Z) :
  geocode_try w i p = Raise (HTTPStatusError code) ->
  exists r, geocode_reply w i p = Response r /\
            status_code r = code /\ is_success code = false.
Proof.
  unfold geocode_try.
  destruct (geocode_reply w i p) as [|r] eqn:Hr; simpl; [discriminate|].
  unfold raise_for_status.
  destruct (is_success (status_code r)) eqn:Hs; simpl.
  - intros H. exfalso. revert H.
    refine (no_status_error_bind _ _ _ _ code).
    { intros c. unfold response_json. destruct (body r); discriminate. }
    intros data _.
    apply no_status_error_bind; [apply py_get_quiet|]. intros results _.
    destruct (negb (truthy results)); [apply no_status_error_Ok|].
    apply no_status_error_bind; [apply py_getitem0_quiet|]. intros first _.
    repeat (apply no_status_error_bind; [apply py_getitem_quiet|]; intros ? _).
    apply make_outcome_quiet.
  - intros [= <-]. exists r. repeat split. exact Hs.
Qed.

Lemma geocode_try_Ok_inv (w : env) (i : nat) (p : string)
    (o : GeocodePlacenameResponse.t) :
  geocode_try w i p = Ok o ->
  exists r data results,
    geocode_reply w i p = Response r /\
    is_success (status_code r) = true /\
    body r = Some data /\
    py_get data "results" = Ok results /\
    ((truthy results = false /\
      o = GeocodePlacenameResponse.failure p "error resolving placename")
     \/ (truthy results = true /\
         exists first position lat lon,
           py_getitem0 results = Ok first /\
           py_getitem first "position" = Ok position /\
           py_getitem position "lat" = Ok lat /\
           py_getitem position "lon" = Ok lon /\
           validate_float w lat = Ok (GeocodePlacenameResponse.latitude o) /\
           validate_float w lon = Ok (GeocodePlacenameResponse.longitude o) /\
           GeocodePlacenameResponse.placename o = p /\
           GeocodePlacenameResponse.message o = "ok")).
Proof.
  unfold geocode_try.
  destruct (geocode_reply w i p) as [|r] eqn:Hr; simpl; [discriminate|].
  unfold raise_for_status.
  destruct (is_success (status_code r)) eqn:Hs; simpl; [|discriminate].
  unfold response_json. destruct (body r) as [data|] eqn:Hb; simpl; [|discriminate].
  destruct (py_get data "results") as [results|e] eqn:Hres; simpl; [|discriminate].
  intros H. exists r, data, results. repeat (split; [reflexivity || assumption|]).
  destruct (truthy results); simpl in H.
  - right. split; [reflexivity|].
    destruct (py_getitem0 results) as [first|e] eqn:H0; simpl in H;
      [|discriminate H].
    destruct (py_getitem first "position") as [position|e] eqn:H1; simpl in H;
      [|discriminate H].
    destruct (py_getitem position "lat") as [lat|e] eqn:H2; simpl in H;
      [|discriminate H].
    destruct (py_getitem position "lon") as [lon|e] eqn:H3; simpl in H;
      [|discriminate H].
    exists first, position, lat, lon. unfold GeocodePlacenameResponse.make in H.
    destruct (validate_float w lat) as [la|e] eqn:H4; [|discriminate H].
    destruct (validate_float w lon) as [lo|e] eqn:H5; [|discriminate H].
    injection H as <-. repeat split; reflexivity || assumption.
  - left. injection H as <-. split; reflexivity.
Qed.

(** X6: what [_geocode_one_placename] answers with, when it answers.
    The outcome carries the name that was asked, and its message is one
    of three.  With "ok", the geocoder has answered with a success
    status and results, and the coordinates are those of the position
    of the first of them.  Otherwise the coordinates are 0.0 and the
    message is "error resolving placename", the results being empty, or
    "upstream error (status code=N)", N being the status code of the
    answer, which is no success. *)
Theorem geocode_outcome_shape (w : env) (i : nat) (p : string)
    (o : GeocodePlacenameResponse.t) :
  _geocode_one_placename w i p = Ok o ->
  GeocodePlacenameResponse.placename o = p /\
  exists r,
    geocode_reply w i p = Response r /\
    ((is_success (status_code r) = false /\
      o = GeocodePlacenameResponse.failure p
            ("upstream error (status code=" +:+ pretty (status_code r) +:+ ")"))
     \/ (is_success (status_code r) = true /\
         exists data results,
           body r = Some data /\
           py_get data "results" = Ok results /\
           ((truthy results = false /\
             o = GeocodePlacenameResponse.failure p "error resolving placename")
            \/ (truthy results = true /\
                GeocodePlacenameResponse.message o = "ok" /\
                exists first position lat lon,
                  py_getitem0 results = Ok first /\
                  py_getitem first "position" = Ok position /\
                  py_getitem position "lat" = Ok lat /\
                  py_getitem position "lon" = Ok lon /\
                  validate_float w lat = Ok (GeocodePlacenameResponse.latitude o) /\
                  validate_float w lon = Ok (GeocodePlacenameResponse.longitude o))))).
Proof.
  intros H. split; [apply (geocode_keeps_placename _ _ _ _ H)|].
  unfold _geocode_one_placename in H.
  destruct (geocode_try w i p) as [o'|e] eqn:E.
  - injection H as ->.
    destruct (geocode_try_Ok_inv _ _ _ _ E)
      as (r & data & results & Hr & Hs & Hb & Hres & Hcases).
    exists r. split; [exact Hr|]. right. split; [exact Hs|].
    exists data, results. split; [exact Hb|]. split; [exact Hres|].
    destruct Hcases as [[Hf ->]|[Ht Hok]]; [left; split; [exact Hf | reflexivity]|].
    right. split; [exact Ht|].
    destruct Hok as (first & position & lat & lon & H1 & H2 & H3 & H4 & H5 & H6 & _ & H8).
    split; [exact H8|]. exists first, position, lat, lon. repeat split; assumption.
  - destruct e as [code| | | | | | | |]; try discriminate H. injection H as <-.
    destruct (geocode_try_status_error_inv _ _ _ _ E) as (r & Hr & <- & Hs).
    exists r. split; [exact Hr|]. left. split; [exact Hs | reflexivity].
Qed.

(** X6 in the scenario: the outcome for "Atlantis". *)
Lemma geocode_outcome_shape_demo :
  GeocodePlacenameResponse.placename
    (GeocodePlacenameResponse.failure "Atlantis" "upstream error (status code=503)")
  = "Atlantis" /\
  exists r, geocode_reply demo 0 "Atlantis" = Response r /\ status_code r = 503.
Proof.
  destruct (geocode_outcome_shape demo 0 "Atlantis"
              (GeocodePlacenameResponse.failure "Atlantis"
                 "upstream error (status code=503)")) as (Hname & r & Hr & Hcases);
    [vm_compute; reflexivity|].
  split; [exact Hname|]. exists r. split; [exact Hr|].
  injection Hr as <-. reflexivity.
Defined.

(** ** Which exception a batch raises *)

Lemma first_raised_origin {A} (rank : nat -> nat) (rs : list (result A)) :
  forall i j e,
  first_raised rank i rs = Some (j, e) ->
  exists n,
    j = (i + n)%nat /\ rs !! n = Some (Raise e) /\
    forall m e', rs !! m = Some (Raise e') -> (rank j <= rank (i + m))%nat.
Proof.
  induction rs as [|r rs IH]; intros i j e; [discriminate|]. simpl.
  destruct r as [a|e0].
  - intros H. destruct (IH _ _ _ H) as (n & -> & Hn & Hmin).
    exists (S n). split; [lia|]. split; [exact Hn|].
    intros [|m] e' Hm; [discriminate Hm|].
    replace (i + S m)%nat with (S i + m)%nat by lia. apply (Hmin m e' Hm).
  - destruct (first_raised rank (S i) rs) as [[j' e1]|] eqn:Hlater.
    + destruct (IH _ _ _ Hlater) as (n & -> & Hn & Hmin).
      destruct (Nat.ltb_spec (rank (S i + n)%nat) (rank i)) as [Hlt|Hge].
      * intros [= <- <-]. exists (S n). split; [lia|]. split; [exact Hn|].
        intros [|m] e' Hm.
        -- rewrite Nat.add_0_r. apply Nat.lt_le_incl, Hlt.
        -- replace (i + S m)%nat with (S i + m)%nat by lia. apply (Hmin m e' Hm).
      * intros [= <- <-]. exists 0%nat. split; [lia|]. split; [reflexivity|].
        intros [|m] e' Hm.
        -- rewrite Nat.add_0_r. lia.
        -- replace (i + S m)%nat with (S i + m)%nat by lia.
           specialize (Hmin m e' Hm). lia.
    + intros [= <- <-]. exists 0%nat. split; [lia|]. split; [reflexivity|].
      intros [|m] e' Hm; [rewrite Nat.add_0_r; lia|].
      exfalso. simpl in Hm.
      assert (Hnone : forall k, first_raised rank k rs = None -> rs !! m <> Some (Raise e')).
      { intros k Hk. apply first_raised_None_inv in Hk.
        intros Hm'. rewrite Forall_lookup in Hk. destruct (Hk m _ Hm') as [a Ha].
        discriminate Ha. }
      apply (Hnone _ Hlater Hm).
Qed.

Lemma geocode_quiet (w : env) (i : nat) (p : string) :
  no_status_error (_geocode_one_placename w i p).
Proof.
  intros code. unfold _geocode_one_placename.
  destruct (geocode_try w i p) as [o|e]; [discriminate|].
  destruct e; discriminate.
Qed.

(** X10: the exception [placenames_to_latlons] raises is the exception
    of one lookup of the batch, one that no failed lookup has finished
    before; and it is never an upstream status error, which a lookup
    turns into an outcome.  [placename_to_latlon] never raises an
    upstream status error either. *)
Theorem batch_exception_origin (w : env) (placenames : list string) (e : pyexn) :
  placenames_to_latlons w placenames = Raise e ->
  (exists i p,
     placenames !! i = Some p /\
     _geocode_one_placename w i p = Raise e /\
     forall j q e',
       placenames !! j = Some q ->
       _geocode_one_placename w j q = Raise e' ->
       (finish_rank w i <= finish_rank w j)%nat) /\
  (forall code, e <> HTTPStatusError code) /\
  (forall q, no_status_error (placename_to_latlon w q)).
Proof.
  unfold placenames_to_latlons, gather. intros H.
  destruct (first_raised _ 0 _) as [[i e0]|] eqn:Hfirst; [|discriminate H].
  injection H as ->.
  destruct (first_raised_origin _ _ _ _ _ Hfirst) as (n & -> & Hn & Hmin).
  simpl in *. rewrite tasks_lookup in Hn.
  destruct (placenames !! n) as [p|] eqn:Hp; [|discriminate Hn].
  injection Hn as Hn.
  split; [|split].
  - exists n, p. split; [exact Hp|]. split; [exact Hn|].
    intros j q e' Hq Hj. apply (Hmin j e').
    rewrite tasks_lookup, Hq. simpl. rewrite Hj. reflexivity.
  - intros code ->. apply (geocode_quiet _ _ _ code Hn).
  - intros q. apply geocode_quiet.
Qed.

(** X10 in the scenario of [outage], whose tasks finish last to first:
    of the two lookups that fail, the third of the batch is the one
    whose exception is raised. *)
Lemma batch_exception_origin_demo :
  exists i p,
    ["Nowhere"; "Paris"; "Utopia"] !! i = Some p /\
    _geocode_one_placename outage i p = Raise (KeyError "position") /\
    forall j q e',
      ["Nowhere"; "Paris"; "Utopia"] !! j = Some q ->
      _geocode_one_placename outage j q = Raise e' ->
      (finish_rank outage i <= finish_rank outage j)%nat.
Proof.
  apply (batch_exception_origin outage ["Nowhere"; "Paris"; "Utopia"]
           (KeyError "position")).
  vm_compute. reflexivity.
Defined.

(** ** The middleware *)

(** X7: [UserInfoMiddleware.on_call_tool] hands the call on unchanged
    when [context.fastmcp_context] is set: it returns what [call_next]
    returns, whether looking the tool up raises or not, and logs one
    line, or none when the lookup raises.  When
    [context.fastmcp_context] is not set, the [return] of line 66 is
    not reached: [call_next] is not called, nothing is logged and the
    method returns [None]. *)
Theorem middleware_hands_the_call_on {T} (context : tool_call)
    (call_next : tool_call -> result T) :
  (fastmcp_context context = true ->
   snd (on_call_tool context call_next) = Some (call_next context) /\
   (length (fst (on_call_tool context call_next)) <= 1)%nat /\
   (fst (on_call_tool context call_next) = [] <-> ~ returns (get_tool context)) /\
   (forall name user_info,
      get_tool context = Ok name ->
      get_http_headers context !! "user-info" = Some user_info ->
      fst (on_call_tool context call_next)
      = ["tool=" +:+ name +:+ "; " +:+ user_info])) /\
  (fastmcp_context context = false ->
   forall other : tool_call -> result T,
     on_call_tool context other = ([], None)).
Proof.
  unfold on_call_tool, log_user_info. split.
  - intros ->. simpl. split; [reflexivity|].
    destruct (get_tool context) as [name|e]; simpl.
    + destruct (get_http_headers context !! "user-info") as [user_info|].
      * split; [simpl; lia|]. split.
        -- split; [discriminate|]. intros H. destruct H. exists name. reflexivity.
        -- intros name' user_info' [= <-] [= <-]. reflexivity.
      * split; [simpl; lia|]. split.
        -- split; [discriminate|]. intros H. destruct H. exists name. reflexivity.
        -- intros name' user_info' _ Habsent. discriminate Habsent.
    + split; [simpl; lia|]. split.
      * split; [intros _ [name H]; discriminate H | reflexivity].
      * intros name user_info Hname. discriminate Hname.
  - intros -> other. reflexivity.
Qed.

(** X7 in two calls of the tool "get-air-quality": with the context
    set and a header naming the user, and without the context. *)
Lemma middleware_hands_the_call_on_demo :
  on_call_tool
    {| fastmcp_context := true;
       get_tool := Ok "get-air-quality";
       get_http_headers := {["user-info" := "alice"]} |}
    (fun _ => get_air_quality demo 1 0)
  = (["tool=get-air-quality; alice"], Some (get_air_quality demo 1 0)) /\
  on_call_tool
    {| fastmcp_context := false;
       get_tool := Ok "get-air-quality";
       get_http_headers := {["user-info" := "alice"]} |}
    (fun _ => get_air_quality demo 1 0)
  = ([], None).
Proof.
  split.
  - destruct (middleware_hands_the_call_on
                {| fastmcp_context := true;
                   get_tool := Ok "get-air-quality";
                   get_http_headers := {["user-info" := "alice"]} |}
                (fun _ => get_air_quality demo 1 0)) as [H _].
    destruct (H eq_refl) as (Hret & _ & _ & Hlog).
    specialize (Hlog "get-air-quality" "alice" eq_refl eq_refl).
    rewrite (surjective_pairing (on_call_tool _ _)), Hret, Hlog. reflexivity.
  - apply (middleware_hands_the_call_on
             {| fastmcp_context := false;
                get_tool := Ok "get-air-quality";
                get_http_headers := {["user-info" := "alice"]} |}
             (fun _ => get_air_quality demo 1 0)). reflexivity.
Defined.
